(** * P2-RAA-Main-Optical: the data-normalisation pipeline of the report generator

    A shallow embedding of the four revisions of the script
    (0210v1, 0210v1.1, 0210v2, 0211v1): header location, column
    classification, sheet extraction, dataset assembly, the ordering keys
    and the parts of the renderer and of the user interface that decide
    what the user sees.

    Modelling conventions.
    - A Python [str] is a [string]; each character stands for a code point
      below 256, and whitespace is what [str.isspace] accepts in that range.
    - Python's [None], pandas' [NaN] and [NaT] are [None] of an option type.
    - Code that may raise returns a [result]; a [try]/[except] is a match on
      it.
    - The mutable accumulators of the loops ([all_data], the messages shown
      by Streamlit, the lines printed) are threaded explicitly.
    - The element-wise coercions [pd.to_numeric(errors='coerce')] and
      [pd.to_datetime(errors='coerce')] belong to pandas: they are
      parameters of the pipeline, and every statement holds for all of them.
    - pandas is taken at its releases from 2.0 on: [melt] refuses a
      [value_name] that is already a column label, and the methods of
      [NaT], [date()] among them, return [NaT].
    - Drawing is left to seaborn and matplotlib. The one call whose outcome
      decides what a revision does, [sns.boxplot] on a frame without rows,
      differs between seaborn releases and is a parameter as well. *)

From Stdlib Require Import Ascii List ZArith Lia Bool.
From Stdlib Require String.
From Stdlib Require QArith_base.
From stdpp Require Import base option list strings gmap.

Import ListNotations.

(** ** Python string operations used by the scripts *)

Module PyStr.

(** [s.startswith(p)] *)
Fixpoint startswith (p s : string) : bool :=
  match p, s with
  | EmptyString, _ => true
  | String _ _, EmptyString => false
  | String a p', String b s' => if Ascii.eqb a b then startswith p' s' else false
  end.

(** [needle in hay] for two strings *)
Fixpoint str_in (needle hay : string) : bool :=
  startswith needle hay
  || match hay with
     | EmptyString => false
     | String _ rest => str_in needle rest
     end.

(** [ch.isspace()] for a code point below 256: TAB, LF, VT, FF, CR,
    FS, GS, RS, US, SPACE, NEL and NBSP. *)
Definition isspace (ch : ascii) : bool :=
  let n := nat_of_ascii ch in
  (Nat.leb 9 n && Nat.leb n 13) || (Nat.leb 28 n && Nat.leb n 32)
  || Nat.eqb n 133 || Nat.eqb n 160.

Fixpoint lstrip (s : string) : string :=
  match s with
  | EmptyString => EmptyString
  | String ch rest => if isspace ch then lstrip rest else s
  end.

(** [rstrip] keeps a character when it is not whitespace or when something
    that is kept follows it. *)
Fixpoint rstrip (s : string) : string :=
  match s with
  | EmptyString => EmptyString
  | String ch rest =>
      match rstrip rest with
      | EmptyString => if isspace ch then EmptyString else String ch EmptyString
      | kept => String ch kept
      end
  end.

(** [s.strip()] *)
Definition strip (s : string) : string := rstrip (lstrip s).

(** [x in names] for a list of strings *)
Definition in_list (x : string) (names : list string) : bool :=
  existsb (String.eqb x) names.

(** The declarative reading of [in]: the needle occurs somewhere. *)
Definition occurs (needle hay : string) : Prop :=
  exists before after, hay = before +:+ needle +:+ after.

End PyStr.

Import PyStr.

(** ** The four revisions of the script *)

Inductive revision : Set :=
| Rev0210v1      (* P2-RAA-Main-Optical-0210v1.py   *)
| Rev0210v1_1    (* P2-RAA-Main-Optical-0210v1.1.py *)
| Rev0210v2      (* P2-RAA-Main-Optical-0210v2.py   *)
| Rev0211v1.     (* P2-RAA-Main-Optical-0211v1.py   *)

(** The revisions that came after 0210v1 in the Streamlit line. *)
Definition later (rev : revision) : bool :=
  match rev with
  | Rev0210v1_1 | Rev0211v1 => true
  | Rev0210v1 | Rev0210v2 => false
  end.

(** ** Column classifier *)

Module Classifier.

(** The test that fills [target_cols], on [c_str = str(c)]. *)
Definition is_target (rev : revision) (c_str : string) : bool :=
  match rev with
  | Rev0210v1 | Rev0210v2 =>
      str_in "Boresight" c_str && str_in "White" c_str
  | Rev0210v1_1 =>
      (str_in "Boresight" c_str || str_in "illu_Boresight" c_str)
      && str_in "White" c_str
  | Rev0211v1 =>
      if negb (str_in "Boresight" c_str) && negb (str_in "illu_Boresight" c_str)
      then false
      else if str_in "White" c_str || str_in "PreAA" c_str then true else false
  end.

Definition station_order : list string :=
  ["PreAA_1"; "PreAA_2"; "AA"; "AfterExp"; "LooseClaws"; "AfterBaking"].

(** The cascade shared by all revisions once the [PreAA] block is passed. *)
Definition station_cascade (col_str : string) : option string :=
  if str_in "AfterExposure" col_str then Some "AfterExp"
  else if str_in "LooseClaws" col_str then Some "LooseClaws"
  else if str_in "AA_M87" col_str then Some "AA"
  else if str_in "AfterBaking" col_str then Some "AfterBaking"
  else None.

Definition get_station_name (rev : revision) (col_str : string) : option string :=
  if str_in "PreAA" col_str then
    if str_in "H1" col_str || str_in "V1" col_str then Some "PreAA_1"
    else if str_in "H2" col_str || str_in "V2" col_str then Some "PreAA_2"
    else if later rev then Some "PreAA_1"
    else station_cascade col_str
  else station_cascade col_str.

Definition get_direction (name_str : string) : string :=
  if str_in "_H_" name_str || str_in "illu_Boresight_H" name_str then "H"
  else if str_in "_V_" name_str || str_in "illu_Boresight_V" name_str then "V"
  else "Unknown".

End Classifier.

Import Classifier.


(** ** Exceptions *)

Inductive exn : Set :=
| ReadError                 (* openpyxl or pandas cannot read the archive or the sheet *)
| KeyError (key : string)   (* a column or dictionary key that is not there *)
| ValueError.               (* an argument a library call refuses *)

Inductive result (A : Type) : Type :=
| Ok (a : A)
| Raise (e : exn).

Arguments Ok {A} a.
Arguments Raise {A} e.

(** ** Workbooks as pandas reads them *)

Abbreviation Q := QArith_base.Q.

Inductive cell : Type :=
| CStr (s : string)     (* text *)
| CNum (x : Q)          (* a number *)
| CStamp (t : Z)        (* a date-time cell, in seconds since the epoch *)
| CBlank.               (* an empty cell: NaN *)

Definition grid : Type := list (list cell).

(** A sheet is its cells, or the exception every read of it raises. *)
Record sheet : Type := {
  sheet_name : string;
  cells : result grid
}.

(** An uploaded (or globbed) file: [pd.ExcelFile] either raises or gives the
    sheets, in the order of [xls.sheet_names]. *)
Record excel_file : Type := {
  name : string;
  book : result (list sheet)
}.

(** A data frame read with a header row: labels and data rows. A short row
    is padded with NaN, which [cell_at] does on access. *)
Record frame : Type := {
  columns : list string;
  data : grid
}.

Definition cell_at (row : list cell) (j : nat) : cell := nth j row CBlank.

(** The element-wise coercions of pandas, [None] being NaN and NaT. *)
Class Pandas : Type := {
  to_numeric : cell -> option Q;
  to_datetime : cell -> option Z
}.

(** ** Header locator *)

Module HeaderLocator.

Definition nrows (rev : revision) : nat :=
  match rev with
  | Rev0210v1 | Rev0210v2 => 20
  | Rev0210v1_1 | Rev0211v1 => 30
  end.

(** [pd.read_excel(..., header=None, nrows=n)] *)
Definition read_excel_raw (sh : sheet) (n : nat) : result grid :=
  match cells sh with
  | Ok g => Ok (firstn n g)
  | Raise e => Raise e
  end.

(** [isinstance(row[0], str) and row[0].strip().startswith('Tester')] *)
Definition is_tester (row0 : cell) : bool :=
  match row0 with
  | CStr s => startswith "Tester" (strip s)
  | _ => false
  end.

(** The [for idx, row in df_temp.iterrows()] loop, from index [idx] on. A
    frame that has rows has a column 0, so [row[0]] is the padded first
    cell. *)
Fixpoint iterrows_scan (idx : nat) (rows : grid) : nat :=
  match rows with
  | [] => 0
  | row :: rest =>
      if is_tester (cell_at row 0) then idx else iterrows_scan (S idx) rest
  end.

Definition find_header_row (rev : revision) (sh : sheet) : nat :=
  match read_excel_raw sh (nrows rev) with
  | Ok df_temp => iterrows_scan 0 df_temp
  | Raise _ => 0                       (* except: return 0 *)
  end.

End HeaderLocator.

Import HeaderLocator.

(** ** Sheet extractor *)

(** One row of a melted frame; [V] is the type of the [Value] column. *)
Record record (V : Type) : Type := {
  CreateTime : option Z;
  Station_Raw : string;
  Value : V;
  Side : string;
  Source : option string;        (* the column does not exist in 0210v2 *)
  Direction : string;
  Station_Generic : option string
}.

Arguments CreateTime {V} _.
Arguments Station_Raw {V} _.
Arguments Value {V} _.
Arguments Side {V} _.
Arguments Source {V} _.
Arguments Direction {V} _.
Arguments Station_Generic {V} _.

(** Lines printed by the 0210v2 script. *)
Inductive line : Type :=
| NoExcelFound
| FoundFiles (n : nat)
| Reading (file sheet : string)
| HeaderUnreadable (sheet : string) (e : exn).

Module Extractor.

Definition allow_set : list string := ["RAA-R"; "RAA-L"; "IPQC-R"; "IPQC-L"].

(** The gate on the sheet name: 0210v1.1 and 0211v1 strip the name first. *)
Definition sheet_allowed (rev : revision) (sheet : string) : bool :=
  if later rev then in_list (strip sheet) allow_set
  else in_list sheet allow_set.

(** [side = 'Right' if '-R' in sheet else 'Left'] *)
Definition side_of (sheet : string) : string :=
  if str_in "-R" sheet then "Right" else "Left".

(** The label pandas gives a header cell; a blank one is an [Unnamed]
    column, and so is, in this model, any cell that is not text. *)
Definition header_label (c : cell) : string :=
  match c with
  | CStr s => s
  | _ => "Unnamed"
  end.

(** [pd.read_excel(..., header=header_idx)] *)
Definition read_excel (sh : sheet) (header : nat) : result frame :=
  match cells sh with
  | Ok g => Ok {| columns := map header_label (nth header g []);
                  data := skipn (S header) g |}
  | Raise e => Raise e
  end.

Definition enumerate {A : Type} (l : list A) : list (nat * A) :=
  combine (seq 0 (length l)) l.

(** The columns kept as [target_cols], with their positions. *)
Definition target_columns (rev : revision) (cols : list string) : list (nat * string) :=
  List.filter (fun jc => is_target rev (snd jc)) (enumerate cols).

(** The position of the column a label denotes. *)
Fixpoint column_index (label : string) (cols : list string) : option nat :=
  match cols with
  | [] => None
  | c :: rest =>
      if String.eqb c label then Some 0
      else match column_index label rest with
           | Some j => Some (S j)
           | None => None
           end
  end.

(** [df.melt(id_vars=['CreateTime'], value_vars=target_cols, ...)] followed
    by the four column assignments: one record per target column and data
    row, column by column. [id_col] is the position of [CreateTime], whose
    cells went through [pd.to_datetime(errors='coerce')]. *)
Definition melt_column `{Pandas} (rev : revision) (side : string)
    (source : option string) (id_col : nat) (rows : grid)
    (jc : nat * string) : list (record cell) :=
  map (fun row =>
         {| CreateTime := to_datetime (cell_at row id_col);
            Station_Raw := snd jc;
            Value := cell_at row (fst jc);
            Side := side;
            Source := source;
            Direction := get_direction (snd jc);
            Station_Generic := get_station_name rev (snd jc) |})
      rows.

Definition melt `{Pandas} (rev : revision) (side : string)
    (source : option string) (id_col : nat) (df : frame)
    (value_vars : list (nat * string)) : list (record cell) :=
  flat_map (melt_column rev side source id_col (data df)) value_vars.

(** The body of the loop over the sheets of one file, for a sheet that
    passed the gate. [None] is a [continue]; an exception escapes. [melt]
    first refuses a frame that has a column labelled [Value], the
    [value_name] it is given, and then one without the [id_vars] column. *)
Definition extract_allowed `{Pandas} (rev : revision) (source : option string)
    (sh : sheet) : result (option (list (record cell))) :=
  let header_idx := find_header_row rev sh in
  match read_excel sh header_idx with
  | Raise e => Raise e
  | Ok df =>
      let side := side_of (sheet_name sh) in
      let target_cols := target_columns rev (columns df) in
      match target_cols with
      | [] => Ok None                                  (* if not target_cols: continue *)
      | _ :: _ =>
          if in_list "Value" (columns df) then
            Raise ValueError                           (* melt: value_name is a column *)
          else
            match column_index "CreateTime" (columns df) with
            | None => Raise (KeyError "CreateTime")    (* melt: id_vars not present *)
            | Some id_col => Ok (Some (melt rev side source id_col df target_cols))
            end
      end
  end.

Definition extract_sheet `{Pandas} (rev : revision) (source : option string)
    (sh : sheet) : result (option (list (record cell))) :=
  if negb (sheet_allowed rev (sheet_name sh)) then Ok None   (* continue *)
  else extract_allowed rev source sh.

(** What 0210v2 prints for one sheet before it reads it: the progress line
    and, when the preview cannot be read, the warning of its
    [find_header_row]. *)
Definition sheet_lines (rev : revision) (file : string) (sh : sheet) : list line :=
  match rev with
  | Rev0210v2 =>
      if sheet_allowed rev (sheet_name sh) then
        Reading file (sheet_name sh)
        :: match read_excel_raw sh (nrows rev) with
           | Raise e => [HeaderUnreadable (sheet_name sh) e]
           | Ok _ => []
           end
      else []
  | _ => []
  end.

(** [for sheet in xls.sheet_names: ...], threading [all_data] and the
    printed lines; the loop stops at the first exception. *)
Fixpoint sheet_loop `{Pandas} (rev : revision) (file : string)
    (source : option string) (sheets : list sheet)
    (all_data : list (list (record cell))) (out : list line)
    : list (list (record cell)) * list line * option exn :=
  match sheets with
  | [] => (all_data, out, None)
  | sh :: rest =>
      let out' := out ++ sheet_lines rev file sh in
      match extract_sheet rev source sh with
      | Raise e => (all_data, out', Some e)
      | Ok None => sheet_loop rev file source rest all_data out'
      | Ok (Some melted) =>
          sheet_loop rev file source rest (all_data ++ [melted]) out'
      end
  end.

End Extractor.

Import Extractor.

(** ** Dataset assembler *)

(** A pandas table: [pd.DataFrame()] has no column at all, any other table
    has the columns of the melted frames. *)
Inductive table (R : Type) : Type :=
| NoColumns
| Frame (rows : list R).

Arguments NoColumns {R}.
Arguments Frame {R} rows.

(** [df.empty] *)
Definition empty {R : Type} (df : table R) : bool :=
  match df with
  | NoColumns => true
  | Frame [] => true
  | Frame (_ :: _) => false
  end.

Definition rows_of {R : Type} (df : table R) : list R :=
  match df with
  | NoColumns => []
  | Frame rows => rows
  end.

(** The Streamlit revisions, which share [process_uploaded_files],
    [generate_ppt] and the main branch. *)
Inductive streamlit : Set :=
| St0210v1
| St0210v1_1
| St0211v1.

Definition rev_of (a : streamlit) : revision :=
  match a with
  | St0210v1 => Rev0210v1
  | St0210v1_1 => Rev0210v1_1
  | St0211v1 => Rev0211v1
  end.


(** ** Report renderer: the charts and the presentation *)

Module Renderer.

Inductive title : Type :=
| OverallSummary
| LatestData (latest_date : option Z)     (* a day, or [None] for NaT *)
| LatestNA                                (* Latest Data (N/A) *)
| ControlChartTitle.

(** An image buffer is what it was drawn from: the arguments of
    [create_boxplot] or of [create_control_chart]. *)
Inductive chart : Type :=
| Boxplot (data : list (record (option Q))) (t : title) (ylim : option (Q * Q))
| ControlChart (data : list (record (option Q))) (ylim : option (Q * Q)).

(** The presentation: the buffers and, per slide, its title and the keys of
    its two pictures. *)
Record deck : Type := {
  image_buffers : gmap string chart;
  slides : list (title * string * string)
}.

(** The revisions whose [generate_ppt] tests [df.empty] before the latest
    charts. *)
Definition guards_empty (a : streamlit) : bool :=
  match a with
  | St0210v1 => false
  | St0210v1_1 | St0211v1 => true
  end.

(** [Timestamp.date()]: the day a time stamp (in seconds) falls on. *)
Definition date (t : Z) : Z := (t / 86400)%Z.

(** [df['CreateTime'].max()], which skips NaT; [None] is NaT. *)
Fixpoint max_time (rows : list (record (option Q))) : option Z :=
  match rows with
  | [] => None
  | r :: rest =>
      match CreateTime r, max_time rest with
      | Some t, Some m => Some (Z.max t m)
      | Some t, None => Some t
      | None, m => m
      end
  end.

(** [df['CreateTime'].dt.date == latest_date], row by row; NaT is equal to
    nothing, not to NaT either. *)
Definition on_date (latest_date : option Z) (r : record (option Q)) : bool :=
  match CreateTime r, latest_date with
  | Some t, Some d => Z.eqb (date t) d
  | _, _ => false
  end.

(** [image_buffers[key]] *)
Definition buffer (image_buffers : gmap string chart) (key : string) : result chart :=
  match image_buffers !! key with
  | Some c => Ok c
  | None => Raise (KeyError key)
  end.

Definition fixed_box : option (Q * Q) :=
  Some (QArith_base.Qmake (-3) 2, QArith_base.Qmake 3 2).        (* (-1.5, 1.5) *)

Definition fixed_control : option (Q * Q) :=
  Some (QArith_base.Qmake (-3) 10, QArith_base.Qmake 3 10).      (* (-0.3, 0.3) *)

End Renderer.

Import Renderer.

(** Messages the Streamlit revisions show. *)
Inductive message : Type :=
| FileError (file : string) (e : exn)   (* st.error: reading the file failed *)
| Success (n : nat)                     (* st.success, 0210v1 *)
| SuccessPreAA (n : nat)                (* st.success: PreAA data included *)
| WarningNoPreAA (n : nat)              (* st.warning: PreAA data not found *)
| ReportReady                           (* st.markdown: the report is done *)
| DownloadButton (ppt_file : deck)
| CannotParse                           (* st.error: cannot parse the data *)
| Traceback (e : exn).                  (* an exception nothing caught *)


Module Assembler.

(** [final_df['Value'] = pd.to_numeric(final_df['Value'], errors='coerce')] *)
Definition coerce_value `{Pandas} (r : record cell) : record (option Q) :=
  {| CreateTime := CreateTime r;
     Station_Raw := Station_Raw r;
     Value := to_numeric (Value r);
     Side := Side r;
     Source := Source r;
     Direction := Direction r;
     Station_Generic := Station_Generic r |}.

Definition present {A : Type} (o : option A) : bool :=
  match o with
  | Some _ => true
  | None => false
  end.

(** [final_df.dropna(subset=['Value', 'Station_Generic'])] *)
Definition dropna (rows : list (record (option Q))) : list (record (option Q)) :=
  List.filter (fun r => present (Value r) && present (Station_Generic r)) rows.

(** From [if not all_data] to the [dropna]. *)
Definition assemble `{Pandas} (all_data : list (list (record cell)))
    : table (record (option Q)) :=
  match all_data with
  | [] => NoColumns                           (* return pd.DataFrame() *)
  | _ :: _ => Frame (dropna (map coerce_value (concat all_data)))
  end.

(** [for uploaded_file in uploaded_files: try: ... except Exception as e:
    st.error(...)], threading [all_data] and the messages shown. *)
Fixpoint file_loop `{Pandas} (a : streamlit) (uploaded_files : list excel_file)
    (all_data : list (list (record cell))) (shown : list message)
    : list (list (record cell)) * list message :=
  match uploaded_files with
  | [] => (all_data, shown)
  | uploaded_file :: rest =>
      match book uploaded_file with
      | Raise e =>
          file_loop a rest all_data (shown ++ [FileError (name uploaded_file) e])
      | Ok sheets =>
          match sheet_loop (rev_of a) (name uploaded_file)
                  (Some (name uploaded_file)) sheets all_data [] with
          | (all_data', _, Some e) =>
              file_loop a rest all_data' (shown ++ [FileError (name uploaded_file) e])
          | (all_data', _, None) => file_loop a rest all_data' shown
          end
      end
  end.

Definition process_uploaded_files `{Pandas} (a : streamlit)
    (uploaded_files : list excel_file)
    : table (record (option Q)) * list message :=
  let '(all_data, shown) := file_loop a uploaded_files [] [] in
  (assemble all_data, shown).

End Assembler.

Import Assembler.

(** ** The local script 0210v2: [process_data] and its sort key *)

Module LocalScript.

(** A row of the table [process_data] returns. *)
Record keyed : Type := {
  base : record (option Q);
  Display_Label : option string;
  Sort_Key : nat
}.

(** [{name: i for i, name in enumerate(station_order)}] *)
Definition order_map : gmap string nat :=
  fold_left (fun m (ix : nat * string) => <[snd ix := fst ix]> m)
            (enumerate station_order) ∅.

(** [final_df['Side'].str[0] + '-' + final_df['Station_Generic']] *)
Definition display_label (r : record (option Q)) : option string :=
  match Side r, Station_Generic r with
  | String initial _, Some station =>
      Some (String initial EmptyString +:+ "-" +:+ station)
  | _, _ => None
  end.

Definition get_sort_key (row : record (option Q)) : nat :=
  let base_order :=
    match Station_Generic row with
    | Some station => default 99 (order_map !! station)
    | None => 99
    end in
  if String.eqb (Side row) "Left" then base_order else base_order + 100.

Definition with_keys (r : record (option Q)) : keyed :=
  {| base := r; Display_Label := display_label r; Sort_Key := get_sort_key r |}.

(** [for file in excel_files:]; only [pd.ExcelFile] is inside a [try], whose
    [except] continues silently, so an exception of the sheet loop leaves
    [process_data]. *)
Fixpoint file_loop `{Pandas} (excel_files : list excel_file)
    (all_data : list (list (record cell))) (out : list line)
    : list line * result (list (list (record cell))) :=
  match excel_files with
  | [] => (out, Ok all_data)
  | file :: rest =>
      match book file with
      | Raise _ => file_loop rest all_data out                (* except: continue *)
      | Ok sheets =>
          match sheet_loop Rev0210v2 (name file) None sheets all_data out with
          | (_, out', Some e) => (out', Raise e)
          | (all_data', out', None) => file_loop rest all_data' out'
          end
      end
  end.

(** The lines printed, and the table returned or the exception raised. *)
Definition process_data `{Pandas} (excel_files : list excel_file)
    : list line * result (table keyed) :=
  match excel_files with
  | [] => ([NoExcelFound], Ok NoColumns)
  | _ :: _ =>
      match file_loop excel_files [] [FoundFiles (length excel_files)] with
      | (out, Raise e) => (out, Raise e)
      | (out, Ok all_data) =>
          (out,
           Ok match assemble all_data with
              | NoColumns => NoColumns
              | Frame final_df => Frame (map with_keys final_df)
              end)
      end
  end.

End LocalScript.

(** ** The box-plot panels of [generate_ppt] *)

Module Charts.

(** [plot_order]: the stations on the left, then the stations on the right. *)
Definition plot_order : list string :=
  map (fun s => "L-" +:+ s) station_order
  ++ map (fun s => "R-" +:+ s) station_order.

(** [x in sub_data['Display_Label'].unique()]; the label column is
    [df['Side'].str[0] + '-' + df['Station_Generic']], the expression
    0210v2 uses too. *)
Definition has_label (x : string) (sub_data : list (record (option Q))) : bool :=
  existsb (fun r => match LocalScript.display_label r with
                    | Some label => String.eqb x label
                    | None => false
                    end) sub_data.

(** [[x for x in plot_order if x in sub_data['Display_Label'].unique()]] *)
Definition current_order (sub_data : list (record (option Q))) : list string :=
  List.filter (fun x => has_label x sub_data) plot_order.

(** One of the two axes of [create_boxplot]: the rows of its direction, the
    order of the labels on its x axis, and whether [sns.boxplot] is called. *)
Record panel : Type := {
  panel_direction : string;
  sub_data : list (record (option Q));
  order : list string;
  boxes_drawn : bool
}.

Definition is_nil {A : Type} (l : list A) : bool :=
  match l with
  | [] => true
  | _ :: _ => false
  end.

(** The loop [for i, direction in enumerate(['H', 'V'])] of
    [create_boxplot]. 0210v1.1 and 0211v1 call [sns.boxplot] only
    [if not sub_data.empty and current_order]; 0210v1 calls it always. *)
Definition create_boxplot (a : streamlit) (data : list (record (option Q)))
    : list panel :=
  map (fun direction =>
         let sub := List.filter (fun r => String.eqb (Direction r) direction) data in
         let current := current_order sub in
         {| panel_direction := direction;
            sub_data := sub;
            order := current;
            boxes_drawn :=
              if guards_empty a then negb (is_nil sub) && negb (is_nil current)
              else true |})
      ["H"; "V"].

End Charts.

Import Charts.

(** ** The plotting library *)

(** [sns.boxplot] on a frame without rows: the exception it raises there, if
    it raises one. The releases of seaborn differ on it. Only 0210v1 makes
    that call; 0210v1.1 and 0211v1 test [sub_data.empty] first. *)
Class Seaborn : Type := {
  boxplot_empty : option exn
}.

(** ** [generate_ppt] *)

Module Presentation.

(** The [sns.boxplot] calls of one [create_boxplot], axis by axis: the first
    one made on a panel without rows ends the drawing when seaborn raises
    there. *)
Fixpoint draw_panels `{Seaborn} (panels : list panel) : result unit :=
  match panels with
  | [] => Ok tt
  | p :: rest =>
      if boxes_drawn p && is_nil (sub_data p) then
        match boxplot_empty with
        | Some e => Raise e
        | None => draw_panels rest
        end
      else draw_panels rest
  end.

(** [create_boxplot(data, title, ylim)]: the buffer, once the panels are
    drawn. *)
Definition draw_boxplot `{Seaborn} (a : streamlit) (data : list (record (option Q)))
    (t : title) (ylim : option (Q * Q)) : result chart :=
  match draw_panels (create_boxplot a data) with
  | Ok _ => Ok (Boxplot data t ylim)
  | Raise e => Raise e
  end.

(** The block under the comment Latest: the title of the latest slide and
    the buffers with the two latest charts added. [max()] of a column
    without a time stamp is NaT, [NaT.date()] is NaT, and no row is on
    that date. *)
Definition latest_charts `{Seaborn} (a : streamlit) (df : list (record (option Q)))
    (image_buffers : gmap string chart) : result (title * gmap string chart) :=
  if guards_empty a && empty (Frame df) then
    match buffer image_buffers "overall_auto" with
    | Raise e => Raise e
    | Ok overall_auto =>
        let image_buffers := <["latest_auto" := overall_auto]> image_buffers in
        match buffer image_buffers "overall_fixed" with
        | Raise e => Raise e
        | Ok overall_fixed =>
            Ok (LatestNA, <["latest_fixed" := overall_fixed]> image_buffers)
        end
    end
  else
    let latest_date := option_map date (max_time df) in
    let latest_df := List.filter (on_date latest_date) df in
    match draw_boxplot a latest_df (LatestData latest_date) None with
    | Raise e => Raise e
    | Ok latest_auto =>
        let image_buffers := <["latest_auto" := latest_auto]> image_buffers in
        match draw_boxplot a latest_df (LatestData latest_date) fixed_box with
        | Raise e => Raise e
        | Ok latest_fixed =>
            Ok (LatestData latest_date,
                <["latest_fixed" := latest_fixed]> image_buffers)
        end
    end.

Definition generate_ppt `{Seaborn} (a : streamlit) (df : table (record (option Q)))
    : result deck :=
  match df with
  | NoColumns => Raise (KeyError "Side")            (* df['Side'] *)
  | Frame rows =>
      let image_buffers : gmap string chart := ∅ in
      match draw_boxplot a rows OverallSummary None with
      | Raise e => Raise e
      | Ok overall_auto =>
          let image_buffers := <["overall_auto" := overall_auto]> image_buffers in
          match draw_boxplot a rows OverallSummary fixed_box with
          | Raise e => Raise e
          | Ok overall_fixed =>
              let image_buffers :=
                <["overall_fixed" := overall_fixed]> image_buffers in
              match latest_charts a rows image_buffers with
              | Raise e => Raise e
              | Ok (latest_title, image_buffers) =>
                  let image_buffers :=
                    <["control_auto" := ControlChart rows None]> image_buffers in
                  let image_buffers :=
                    <["control_fixed" := ControlChart rows fixed_control]>
                      image_buffers in
                  Ok {| image_buffers := image_buffers;
                        slides :=
                          [(OverallSummary, "overall_auto", "overall_fixed");
                           (latest_title, "latest_auto", "latest_fixed");
                           (ControlChartTitle, "control_auto", "control_fixed")] |}
              end
          end
      end
  end.

End Presentation.

Import Presentation.

(** ** The main branch of the Streamlit revisions *)

Module Main.

(** [df['Station_Generic'].unique()] contains the station *)
Definition has_station (station : string) (rows : list (record (option Q))) : bool :=
  existsb (fun r => match Station_Generic r with
                    | Some s => String.eqb s station
                    | None => false
                    end) rows.

(** What follows [if not df.empty:] before the report is generated. *)
Definition signal (a : streamlit) (df : table (record (option Q))) : message :=
  let n := length (rows_of df) in
  match a with
  | St0210v1 => Success n
  | St0210v1_1 | St0211v1 =>
      if has_station "PreAA_1" (rows_of df) then SuccessPreAA n
      else WarningNoPreAA n
  end.

(** Everything shown for one run of the script: the files in the uploader
    and whether the button was pressed. *)
Definition main `{Pandas} `{Seaborn} (a : streamlit)
    (uploaded_files : list excel_file) (button : bool) : list message :=
  match uploaded_files with
  | [] => []                                        (* if uploaded_files: *)
  | _ :: _ =>
      if button then
        let '(df, shown) := process_uploaded_files a uploaded_files in
        shown ++
        (if negb (empty df) then
           signal a df
           :: match generate_ppt a df with
              | Ok ppt_file => [ReportReady; DownloadButton ppt_file]
              | Raise e => [Traceback e]
              end
         else [CannotParse])
      else []
  end.

End Main.

Import Main.

(** ** Vocabulary of the statements *)

(** A column name of the optical measurement family. *)
Definition optical_family (c : string) : Prop :=
  occurs "Boresight" c \/ occurs "illu_Boresight" c.

(** All characters of a token are other than whitespace. *)
Fixpoint solid (p : string) : bool :=
  match p with
  | EmptyString => true
  | String ch rest => negb (isspace ch) && solid rest
  end.

(** Row [i] of a grid starts with a text cell which, stripped, starts with
    [Tester]. *)
Definition tester_row (g : grid) (i : nat) : Prop :=
  exists row s rest,
    g !! i = Some row /\ cell_at row 0 = CStr s
    /\ strip s = "Tester" +:+ rest.

(** What the coercions do on the cells used in the examples: a number is
    numeric, a date-time cell is a time stamp, anything else is missing. *)
Definition plain_pandas : Pandas :=
  {| to_numeric c := match c with CNum x => Some x | _ => None end;
     to_datetime c := match c with CStamp t => Some t | _ => None end |}.

(** Two seaborns for the examples: one that refuses to draw a frame without
    rows, and one that leaves the axis empty. *)
Definition strict_seaborn : Seaborn := {| boxplot_empty := Some ValueError |}.

Definition lenient_seaborn : Seaborn := {| boxplot_empty := None |}.

(** What one file, taken alone, adds to [all_data], and the exception that
    ends its processing, if any. *)
Definition file_frames `{Pandas} (rev : revision) (source : bool) (f : excel_file)
    : list (list (record cell)) :=
  match book f with
  | Raise _ => []
  | Ok sheets =>
      (sheet_loop rev (name f) (if source then Some (name f) else None)
                  sheets [] []).1.1
  end.

Definition file_failure `{Pandas} (rev : revision) (f : excel_file) : option exn :=
  match book f with
  | Raise e => Some e
  | Ok sheets => (sheet_loop rev (name f) None sheets [] []).2
  end.

Definition file_errors `{Pandas} (a : streamlit) (f : excel_file) : list message :=
  match file_failure (rev_of a) f with
  | Some e => [FileError (name f) e]
  | None => []
  end.

(** What every melted record satisfies in revision [rev]. *)
Definition classified (rev : revision) (r : record cell) : Prop :=
  Station_Generic r = get_station_name rev (Station_Raw r)
  /\ Direction r = get_direction (Station_Raw r)
  /\ is_target rev (Station_Raw r) = true
  /\ (Side r = "Left" \/ Side r = "Right").

(** A line of 0210v2 that names the file. *)
Definition mentions_file (file : string) (l : line) : Prop :=
  match l with
  | Reading f _ => f = file
  | _ => False
  end.

(** The sort key of 0210v2 without the side: the index of the station, or
    the sentinel. *)
Definition base_order (row : record (option Q)) : nat :=
  match Station_Generic row with
  | Some station => default 99 (LocalScript.order_map !! station)
  | None => 99
  end.

(** A sheet that cannot yield a record: its name does not pass the gate,
    or it can be read and no cell of it is the label of a target column. *)
Definition barren (rev : revision) (sh : sheet) : Prop :=
  sheet_allowed rev (sheet_name sh) = false
  \/ exists g,
       cells sh = Ok g
       /\ Forall (Forall (fun c => is_target rev (header_label c) = false)) g.

(** A file that opens and has only such sheets. *)
Definition barren_file (rev : revision) (f : excel_file) : Prop :=
  exists sheets, book f = Ok sheets /\ Forall (barren rev) sheets.

(** [d] is the maximum date present in the dataset: the day of some dated
    record, and no dated record is of a later day. *)
Definition is_latest_day (df : list (record (option Q))) (d : Z) : Prop :=
  (exists r t, In r df /\ CreateTime r = Some t /\ date t = d)
  /\ (forall r t, In r df -> CreateTime r = Some t -> (date t <= d)%Z).

(** The data has a record of the direction. *)
Definition has_direction (direction : string) (data : list (record (option Q)))
    : bool :=
  existsb (fun r => String.eqb (Direction r) direction) data.

(** The table has a record of the station. *)
Definition has_record (station : string) (rows : list (record (option Q))) : Prop :=
  exists r, In r rows /\ Station_Generic r = Some station.

(** A string of whitespace only. *)
Fixpoint all_space (s : string) : bool :=
  match s with
  | EmptyString => true
  | String ch rest => isspace ch && all_space rest
  end.

(** ** Example workbooks *)

Module Examples.

Definition q (num : Z) (den : positive) : Q := QArith_base.Qmake num den.

(** Two banner rows, the header in the third row, three data rows. *)
Definition left_grid : grid :=
  [ [CStr "Optical report"];
    [CBlank; CStr "line 2"];
    [CStr "Tester"; CStr "CreateTime";
     CStr "AA_M87_illu_Boresight_H_White_1";
     CStr "AfterBaking_illu_Boresight_V_White_1"; CStr "Operator"];
    [CStr "T01"; CStamp 86400; CNum (q 1 10); CNum (q (-2) 10); CStr "amy"];
    [CStr "T01"; CStamp 172800; CStr "N/A"; CNum (q 3 100); CStr "bob"];
    [CStr "T02"; CStr "yesterday"; CNum (q 5 100); CBlank; CStr "bob"] ].

Definition right_grid : grid :=
  [ [CStr " Tester ID"; CStr "CreateTime"; CStr "PreAA_H2_illu_Boresight_White"];
    [CStr "T07"; CStamp 200000; CNum (q 7 100)] ].

(** A header without the [CreateTime] column. *)
Definition no_time_grid : grid :=
  [ [CStr "Tester"; CStr "AA_M87_illu_Boresight_H_White_1"];
    [CStr "T03"; CNum (q 1 100)] ].

(** No column of the optical family. *)
Definition no_target_grid : grid :=
  [ [CStr "Tester"; CStr "CreateTime"; CStr "Temperature_White"];
    [CStr "T04"; CStamp 86400; CNum (q 25 1)] ].

(** Time stamps that do not parse. *)
Definition undated_grid : grid :=
  [ [CStr "Tester"; CStr "CreateTime"; CStr "AA_M87_illu_Boresight_H_White_1"];
    [CStr "T05"; CStr "n/a"; CNum (q 1 100)] ].

Definition good_file : excel_file :=
  {| name := "good.xlsx";
     book := Ok [ {| sheet_name := "RAA-L"; cells := Ok left_grid |};
                  {| sheet_name := "Summary"; cells := Ok no_target_grid |};
                  {| sheet_name := "IPQC-R"; cells := Ok right_grid |} ] |}.

Definition bad_file : excel_file :=
  {| name := "bad.xlsx"; book := Raise ReadError |}.

Definition no_time_file : excel_file :=
  {| name := "no_time.xlsx";
     book := Ok [ {| sheet_name := "RAA-L"; cells := Ok no_time_grid |} ] |}.

Definition padded_file : excel_file :=
  {| name := "padded.xlsx";
     book := Ok [ {| sheet_name := " RAA-R "; cells := Ok right_grid |} ] |}.

Definition other_sheets_file : excel_file :=
  {| name := "other.xlsx";
     book := Ok [ {| sheet_name := "Sheet1"; cells := Ok left_grid |} ] |}.

Definition no_target_file : excel_file :=
  {| name := "no_target.xlsx";
     book := Ok [ {| sheet_name := "RAA-L"; cells := Ok no_target_grid |} ] |}.

Definition preaa2_file : excel_file :=
  {| name := "preaa2.xlsx";
     book := Ok [ {| sheet_name := "IPQC-R"; cells := Ok right_grid |} ] |}.

Definition undated_file : excel_file :=
  {| name := "undated.xlsx";
     book := Ok [ {| sheet_name := "RAA-L"; cells := Ok undated_grid |} ] |}.

End Examples.

(** ** More example workbooks *)

Module MoreExamples.

(** Twenty-two blank banner rows, then the header and one data row. *)
Definition deep_header_grid : grid :=
  repeat [CBlank] 22
  ++ [ [CStr "Tester"; CStr "CreateTime"; CStr "AA_M87_illu_Boresight_H_White_1"];
       [CStr "T09"; CStamp 86400; CNum (Examples.q 1 10)] ].

Definition deep_header_sheet : sheet :=
  {| sheet_name := "RAA-L"; cells := Ok deep_header_grid |}.

End MoreExamples.

Import MoreExamples.

(** ** More vocabulary *)

(** The record [melt] makes of one data row and one target column. *)
Definition melted_record `{Pandas} (rev : revision) (side : string)
    (source : option string) (id_col : nat) (jc : nat * string)
    (row : list cell) : record cell :=
  {| CreateTime := to_datetime (cell_at row id_col);
     Station_Raw := snd jc;
     Value := cell_at row (fst jc);
     Side := side;
     Source := source;
     Direction := get_direction (snd jc);
     Station_Generic := get_station_name rev (snd jc) |}.

(** The header row the extractor uses and the data rows below it. *)
Definition header_cells (rev : revision) (sh : sheet) (g : grid) : list cell :=
  nth (find_header_row rev sh) g [].

Definition data_rows (rev : revision) (sh : sheet) (g : grid) : grid :=
  skipn (S (find_header_row rev sh)) g.

Module MoreExamples2.

(** A workbook whose second sheet lacks [CreateTime]. *)
Definition half_bad_file : excel_file :=
  {| name := "half.xlsx";
     book := Ok [ {| sheet_name := "RAA-L"; cells := Ok Examples.left_grid |};
                  {| sheet_name := "RAA-R"; cells := Ok Examples.no_time_grid |};
                  {| sheet_name := "IPQC-R"; cells := Ok Examples.right_grid |} ] |}.

(** A sheet with a column labelled [Value] beside its target column. *)
Definition value_grid : grid :=
  [ [CStr "Tester"; CStr "CreateTime"; CStr "AA_M87_illu_Boresight_H_White_1";
     CStr "Value"];
    [CStr "T06"; CStamp 86400; CNum (Examples.q 1 100); CNum (Examples.q 2 100)] ].

End MoreExamples2.

Import MoreExamples2.

(** What 0210v2 prints for a file all of whose sheets it goes through;
    a file it cannot open leaves no line. *)
Definition file_lines (f : excel_file) : list line :=
  match book f with
  | Raise _ => []
  | Ok sheets => flat_map (sheet_lines Rev0210v2 (name f)) sheets
  end.

(** A record with its [Source] column replaced. *)
Definition set_source {V : Type} (source : option string) (r : record V) : record V :=
  {| CreateTime := CreateTime r;
     Station_Raw := Station_Raw r;
     Value := Value r;
     Side := Side r;
     Source := source;
     Direction := Direction r;
     Station_Generic := Station_Generic r |}.
(** [String.append] is kept folded by the reduction tactics here, so its two
    equations are stated once. *)
Lemma append_nil (s : string) : EmptyString +:+ s = s.
Proof. reflexivity. Qed.

Lemma append_cons (ch : ascii) (a b : string) :
  String ch a +:+ b = String ch (a +:+ b).
Proof. reflexivity. Qed.

Lemma append_assoc (a b c : string) : (a +:+ b) +:+ c = a +:+ (b +:+ c).
Proof.
  induction a as [|ch a IH]; [reflexivity|].
  now rewrite !append_cons, IH.
Qed.

Lemma startswith_spec p s :
  startswith p s = true <-> exists rest, s = p +:+ rest.
Proof.
  revert s; induction p as [|a p IH]; intros s; simpl.
  - split; [intros _; exists s; reflexivity | reflexivity].
  - destruct s as [|b s].
    + split; [discriminate | intros [r Hr]; discriminate].
    + destruct (Ascii.eqb_spec a b) as [->|Hne].
      * rewrite IH. split; intros [r Hr]; exists r.
        -- now rewrite append_cons, Hr.
        -- rewrite append_cons in Hr. now injection Hr.
      * split; [discriminate | intros [r Hr]].
        rewrite append_cons in Hr. injection Hr as Hab _. now subst.
Qed.

Lemma str_in_spec needle hay :
  str_in needle hay = true <-> occurs needle hay.
Proof.
  unfold occurs. induction hay as [|c hay IH].
  - simpl. rewrite orb_false_r, startswith_spec. split.
    + intros [r Hr]. exists EmptyString, r. exact Hr.
    + intros [b [a Ha]]. destruct b as [|c b].
      * rewrite append_nil in Ha. eauto.
      * rewrite append_cons in Ha. discriminate.
  - simpl. rewrite orb_true_iff, startswith_spec, IH. split.
    + intros [[r Hr] | [b [a Ha]]].
      * exists EmptyString, r. exact Hr.
      * exists (String c b), a. now rewrite append_cons, Ha.
    + intros [b [a Ha]]. destruct b as [|c' b].
      * rewrite append_nil in Ha. left; eauto.
      * rewrite append_cons in Ha. right. injection Ha as _ Ha. eauto.
Qed.

Lemma str_in_false needle hay :
  str_in needle hay = false <-> ~ occurs needle hay.
Proof.
  rewrite <- str_in_spec. destruct (str_in needle hay); split; congruence.
Qed.

Lemma occurs_trans a b c : occurs a b -> occurs b c -> occurs a c.
Proof.
  intros [x [y ->]] [u [v ->]].
  exists (u +:+ x), (y +:+ v).
  now rewrite !append_assoc.
Qed.

Lemma in_list_spec x names : in_list x names = true <-> In x names.
Proof.
  unfold in_list. rewrite existsb_exists. split.
  - intros [y [Hy Heq]]. apply String.eqb_eq in Heq. now subst.
  - intros H. exists x. split; [exact H | apply String.eqb_refl].
Qed.


(** ** Stripping does not touch what is between the whitespace *)

Section StripFacts.

Lemma solid_head_differs a p b s :
  solid (String a p) = true -> isspace b = true ->
  startswith (String a p) (String b s) = false.
Proof.
  simpl. intros Hs Hb. apply andb_true_iff in Hs as [Ha _].
  destruct (Ascii.eqb_spec a b) as [->|_]; [|reflexivity].
  rewrite Hb in Ha. discriminate.
Qed.

Lemma str_in_lstrip p s :
  p <> EmptyString -> solid p = true -> str_in p (lstrip s) = str_in p s.
Proof.
  intros Hne Hp. destruct p as [|a p]; [congruence|].
  induction s as [|b s IH]; [reflexivity|].
  cbn [lstrip]. destruct (isspace b) eqn:Hb; [|reflexivity].
  rewrite IH. cbn [str_in]. now rewrite (solid_head_differs a p b s Hp Hb).
Qed.

Lemma startswith_rstrip p s :
  solid p = true -> startswith p (rstrip s) = startswith p s.
Proof.
  revert p. induction s as [|b s IH]; intros p Hp; [reflexivity|].
  destruct p as [|a p]; [reflexivity|].
  pose proof Hp as Hp'. simpl in Hp'. apply andb_true_iff in Hp' as [Ha Hrest].
  specialize (IH p Hrest).
  cbn [rstrip]. destruct (rstrip s) as [|c kept] eqn:E.
  - destruct (isspace b) eqn:Hb.
    + now rewrite (solid_head_differs a p b s Hp Hb).
    + cbn [startswith]. destruct (Ascii.eqb a b); [exact IH | reflexivity].
  - cbn [startswith]. destruct (Ascii.eqb a b); [exact IH | reflexivity].
Qed.

Lemma str_in_rstrip p s :
  p <> EmptyString -> solid p = true -> str_in p (rstrip s) = str_in p s.
Proof.
  intros Hne Hp. induction s as [|b s IH]; [reflexivity|].
  pose proof (startswith_rstrip p (String b s) Hp) as Hsw.
  cbn [rstrip] in *. cbn [str_in]. rewrite <- IH, <- Hsw.
  destruct (rstrip s) as [|c kept] eqn:E.
  - destruct (isspace b) eqn:Hb; [|reflexivity].
    destruct p as [|a p]; [congruence | reflexivity].
  - reflexivity.
Qed.

Lemma str_in_strip p s :
  p <> EmptyString -> solid p = true -> str_in p (strip s) = str_in p s.
Proof.
  intros Hne Hp. unfold strip.
  now rewrite str_in_rstrip, str_in_lstrip.
Qed.

End StripFacts.

(** ** What stripping removes *)

Section StripShape.

Lemma lstrip_decompose s :
  exists l, s = l +:+ lstrip s /\ all_space l = true.
Proof.
  induction s as [|ch s [l [Hs Hl]]].
  - exists EmptyString. split; reflexivity.
  - cbn [lstrip]. destruct (isspace ch) eqn:Hch.
    + exists (String ch l). rewrite append_cons, <- Hs. split; [reflexivity|].
      simpl. now rewrite Hch.
    + exists EmptyString. split; reflexivity.
Qed.

Lemma lstrip_head s ch rest : lstrip s = String ch rest -> isspace ch = false.
Proof.
  induction s as [|c s IH]; [discriminate|].
  cbn [lstrip]. destruct (isspace c) eqn:Hc; [exact IH|].
  intros [= <- _]. exact Hc.
Qed.

Lemma rstrip_decompose s :
  exists r, s = rstrip s +:+ r /\ all_space r = true.
Proof.
  induction s as [|ch s [r [Hs Hr]]].
  - exists EmptyString. split; reflexivity.
  - cbn [rstrip]. destruct (rstrip s) as [|c kept].
    + rewrite append_nil in Hs. subst r. destruct (isspace ch) eqn:Hch.
      * exists (String ch s). split; [reflexivity|]. simpl. now rewrite Hch.
      * exists s. split; [reflexivity | exact Hr].
    + exists r. rewrite append_cons, <- Hs. split; [reflexivity | exact Hr].
Qed.

(** [strip] takes whitespace, and only whitespace, off both ends. *)
Lemma strip_decompose s :
  exists l r, s = l +:+ strip s +:+ r /\ all_space l = true /\ all_space r = true.
Proof.
  destruct (lstrip_decompose s) as [l [Hs Hl]].
  destruct (rstrip_decompose (lstrip s)) as [r [Hm Hr]].
  exists l, r. unfold strip. rewrite <- Hm. auto.
Qed.

End StripShape.
(** ** Theorems on the column classifier *)

Section ClassifierFacts.

Local Ltac token_cases :=
  repeat match goal with
         | |- context [str_in ?t ?c] => destruct (str_in t c) eqn:?
         end.

Lemma illu_has_Boresight c : occurs "illu_Boresight" c -> occurs "Boresight" c.
Proof.
  apply occurs_trans. exists "illu_", "". reflexivity.
Qed.

Lemma cascade_in_order c st : station_cascade c = Some st -> In st station_order.
Proof.
  unfold station_cascade, station_order. token_cases; intros [= <-]; simpl; tauto.
Qed.

Lemma get_station_name_in_order rev c st :
  get_station_name rev c = Some st -> In st station_order.
Proof.
  unfold get_station_name.
  destruct (str_in "PreAA" c); [|apply cascade_in_order].
  destruct (str_in "H1" c || str_in "V1" c); [intros [= <-]; simpl; tauto|].
  destruct (str_in "H2" c || str_in "V2" c); [intros [= <-]; simpl; tauto|].
  destruct (later rev); [intros [= <-]; simpl; tauto | apply cascade_in_order].
Qed.

End ClassifierFacts.

(** C1: the Target-column test returns true exactly for the names of the
    optical family ([Boresight] or [illu_Boresight]) that contain [White] or,
    in revision 0211v1, [PreAA]; the other three revisions ask for [White].
    In every revision a name with [Boresight] and [White] is a target and a
    name outside the optical family is not. *)
Theorem target_column_test_spec (c : string) :
  (is_target Rev0211v1 c = true
   <-> optical_family c /\ (occurs "White" c \/ occurs "PreAA" c))
  /\ (forall rev, rev <> Rev0211v1 ->
        (is_target rev c = true <-> optical_family c /\ occurs "White" c))
  /\ (forall rev, occurs "Boresight" c -> occurs "White" c ->
        is_target rev c = true)
  /\ (forall rev, ~ optical_family c -> is_target rev c = false).
Proof.
  unfold optical_family.
  pose proof (illu_has_Boresight c) as Hillu.
  rewrite <- !str_in_spec in *.
  assert (Hcases : forall rev,
             is_target rev c
             = (str_in "Boresight" c || str_in "illu_Boresight" c)
               && (str_in "White" c
                   || match rev with
                      | Rev0211v1 => str_in "PreAA" c
                      | _ => false
                      end)).
  { intros rev. unfold is_target.
    destruct (str_in "illu_Boresight" c).
    - rewrite (Hillu eq_refl).
      destruct rev, (str_in "White" c), (str_in "PreAA" c); reflexivity.
    - destruct rev, (str_in "Boresight" c), (str_in "White" c),
        (str_in "PreAA" c); reflexivity. }
  split; [|split; [|split]].
  - rewrite <- ?str_in_spec, Hcases, andb_true_iff, !orb_true_iff. reflexivity.
  - intros rev Hrev. rewrite <- ?str_in_spec, Hcases, andb_true_iff, !orb_true_iff.
    destruct rev; try congruence; split; intros [Hf Hw]; (split; [exact Hf|]);
      try (destruct Hw as [Hw|Hw]; [exact Hw | discriminate Hw]); now left.
  - intros rev HB HW. rewrite <- str_in_spec in HB, HW.
    rewrite Hcases, HB, HW. reflexivity.
  - intros rev Hno. rewrite <- ?str_in_spec in Hno. rewrite Hcases.
    destruct (str_in "Boresight" c); [exfalso; apply Hno; now left|].
    destruct (str_in "illu_Boresight" c); [exfalso; apply Hno; now right|].
    reflexivity.
Qed.

(** C2: the Station classifier is total: on every string it returns one of
    the six canonical stations or no station. It sends [PreAA_H1_White] to
    [PreAA_1], [PreAA_H2_White] to [PreAA_2] and [AA_M87_White] to [AA], and
    in the later revisions (0210v1.1, 0211v1) a name with [PreAA] and none
    of the markers H1, V1, H2, V2 goes to [PreAA_1]. *)
Theorem station_classifier_total (rev : revision) (s : string) :
  (get_station_name rev s = None
   \/ exists st, get_station_name rev s = Some st /\ In st station_order)
  /\ station_order
     = ["PreAA_1"; "PreAA_2"; "AA"; "AfterExp"; "LooseClaws"; "AfterBaking"]
  /\ NoDup station_order
  /\ get_station_name rev "PreAA_H1_White" = Some "PreAA_1"
  /\ get_station_name rev "PreAA_H2_White" = Some "PreAA_2"
  /\ get_station_name rev "AA_M87_White" = Some "AA"
  /\ (later rev = true -> occurs "PreAA" s ->
      ~ occurs "H1" s -> ~ occurs "V1" s -> ~ occurs "H2" s -> ~ occurs "V2" s ->
      get_station_name rev s = Some "PreAA_1").
Proof.
  split; [|split; [|split; [|split; [|split; [|split]]]]].
  - destruct (get_station_name rev s) as [st|] eqn:E; [right | now left].
    exists st. split; [reflexivity | eapply get_station_name_in_order; eassumption].
  - reflexivity.
  - unfold station_order.
    repeat (apply NoDup_cons_2; [rewrite !list_elem_of_In; simpl; intuition discriminate|]).
    apply NoDup_nil_2.
  - destruct rev; reflexivity.
  - destruct rev; reflexivity.
  - destruct rev; reflexivity.
  - intros Hl HP H1 V1 H2 V2.
    apply str_in_spec in HP. apply str_in_false in H1, V1, H2, V2.
    unfold get_station_name. now rewrite HP, H1, V1, H2, V2, Hl.
Qed.

(** ** The header locator *)

Section HeaderLocatorFacts.

Example strip_example : strip "  Tester ID  " = "Tester ID".
Proof. reflexivity. Qed.

Example strip_tabs_newlines :
  strip (String (ascii_of_nat 9) ("Tester" +:+ String (ascii_of_nat 10) "")) = "Tester".
Proof. reflexivity. Qed.

Lemma is_tester_spec (c : cell) :
  is_tester c = true <-> exists s rest, c = CStr s /\ strip s = "Tester" +:+ rest.
Proof.
  destruct c as [s| | |]; unfold is_tester.
  - rewrite startswith_spec. split.
    + intros [rest Hr]. eauto.
    + intros [s' [rest [[= <-] Hr]]]. eauto.
  - split; [discriminate | intros [s [rest [[=] _]]]].
  - split; [discriminate | intros [s [rest [[=] _]]]].
  - split; [discriminate | intros [s [rest [[=] _]]]].
Qed.

Lemma tester_row_spec (g : grid) (i : nat) :
  tester_row g i <-> exists row, g !! i = Some row /\ is_tester (cell_at row 0) = true.
Proof.
  unfold tester_row. split.
  - intros [row [s [rest [Hi [Hc Hs]]]]]. exists row. split; [exact Hi|].
    apply is_tester_spec. eauto.
  - intros [row [Hi Ht]]. apply is_tester_spec in Ht as [s [rest [Hc Hs]]].
    exists row, s, rest. auto.
Qed.

(** The scan returns the offset of the first row that matches. *)
Lemma iterrows_scan_first (rows : grid) (k i : nat) :
  tester_row rows i -> (forall j, j < i -> ~ tester_row rows j) ->
  iterrows_scan k rows = k + i.
Proof.
  revert k i. induction rows as [|row rows IH]; intros k i Hi Hfirst.
  - apply tester_row_spec in Hi as [row [Hrow _]]. discriminate.
  - simpl. destruct (is_tester (cell_at row 0)) eqn:Erow.
    + destruct i as [|i]; [lia|].
      exfalso. apply (Hfirst 0); [lia|].
      apply tester_row_spec. exists row. auto.
    + destruct i as [|i].
      * apply tester_row_spec in Hi as [row' [[= <-] Ht]]. congruence.
      * rewrite (IH (S k) i); [lia | |].
        -- apply tester_row_spec in Hi as [row' [Hrow Ht]].
           apply tester_row_spec. now exists row'.
        -- intros j Hj Htj. apply (Hfirst (S j)); [lia|].
           apply tester_row_spec in Htj as [row' [Hrow Ht]].
           apply tester_row_spec. now exists row'.
Qed.

Lemma iterrows_scan_none (rows : grid) (k : nat) :
  (forall i, ~ tester_row rows i) -> iterrows_scan k rows = 0.
Proof.
  revert k. induction rows as [|row rows IH]; intros k Hnone; [reflexivity|].
  simpl. destruct (is_tester (cell_at row 0)) eqn:Erow.
  - exfalso. apply (Hnone 0). apply tester_row_spec. exists row. auto.
  - apply IH. intros i Hi. apply (Hnone (S i)).
    apply tester_row_spec in Hi as [row' [Hrow Ht]].
    apply tester_row_spec. now exists row'.
Qed.

Lemma tester_row_take (g : grid) (n i : nat) :
  tester_row (take n g) i <-> i < n /\ tester_row g i.
Proof.
  rewrite !tester_row_spec. split.
  - intros [row [Hrow Ht]]. apply lookup_take_Some in Hrow as [Hrow Hlt].
    split; [exact Hlt | now exists row].
  - intros [Hlt [row [Hrow Ht]]]. exists row. split; [|exact Ht].
    apply lookup_take_Some. auto.
Qed.

End HeaderLocatorFacts.

(** C3: for every sheet the Header Locator returns the index of the first
    row, among the first 20 (0210v1, 0210v2) or 30 (0210v1.1, 0211v1) rows,
    whose first cell is text that, stripped of surrounding whitespace,
    starts with [Tester]; it returns 0 when no row within that depth
    matches and when reading the sheet raises. Its result is a number in
    every case: no exception leaves it. *)
Theorem find_header_row_spec (rev : revision) (sh : sheet) :
  (nrows rev = 20 \/ nrows rev = 30)
  /\ (forall e, cells sh = Raise e -> find_header_row rev sh = 0)
  /\ (forall g, cells sh = Ok g ->
        (forall i,
            i < nrows rev -> tester_row g i ->
            (forall j, j < i -> ~ tester_row g j) ->
            find_header_row rev sh = i)
        /\ ((forall i, i < nrows rev -> ~ tester_row g i) ->
            find_header_row rev sh = 0)).
Proof.
  split; [destruct rev; simpl; auto|].
  unfold find_header_row, read_excel_raw. split.
  - intros e ->. reflexivity.
  - intros g ->. split.
    + intros i Hi Hrow Hfirst.
      change i with (0 + i) at 1. symmetry.
      rewrite (iterrows_scan_first (take (nrows rev) g) 0 i); [reflexivity | |].
      * apply tester_row_take. auto.
      * intros j Hj Htj. apply tester_row_take in Htj as [_ Htj].
        now apply (Hfirst j).
    + intros Hnone. apply iterrows_scan_none.
      intros i Hi. apply tester_row_take in Hi as [Hlt Hi]. now apply (Hnone i).
Qed.

(** ** The loops over sheets and files *)

Section LoopFacts.

Context `{Pandas}.

(** The accumulators only grow: a loop started on [all_data] and [out] adds
    what it would add started on nothing. *)
Lemma sheet_loop_acc rev file source sheets all_data out :
  sheet_loop rev file source sheets all_data out
  = let '(added, printed, e) := sheet_loop rev file source sheets [] [] in
    (all_data ++ added, out ++ printed, e).
Proof.
  revert all_data out. induction sheets as [|sh rest IH]; intros all_data out.
  - simpl. now rewrite !app_nil_r.
  - simpl. set (printed0 := sheet_lines rev file sh).
    destruct (extract_sheet rev source sh) as [[melted|]|e].
    + rewrite (IH (all_data ++ [melted]) (out ++ printed0)), (IH [melted] printed0).
      destruct (sheet_loop rev file source rest [] []) as [[added printed] e].
      now rewrite <- !app_assoc.
    + rewrite (IH all_data (out ++ printed0)), (IH [] printed0).
      destruct (sheet_loop rev file source rest [] []) as [[added printed] e].
      now rewrite <- !app_assoc.
    + now rewrite app_nil_r.
Qed.

(** The [Source] column does not change which sheets are read, what is
    printed or how the loop ends. *)
Lemma extract_sheet_source rev source source' sh :
  match extract_sheet rev source sh, extract_sheet rev source' sh with
  | Ok (Some _), Ok (Some _) => True
  | Ok None, Ok None => True
  | Raise e, Raise e' => e = e'
  | _, _ => False
  end.
Proof.
  unfold extract_sheet, extract_allowed.
  destruct (negb (sheet_allowed rev (sheet_name sh))); [exact I|].
  destruct (read_excel sh (find_header_row rev sh)) as [df|e]; [|reflexivity].
  destruct (target_columns rev (columns df)); [exact I|].
  destruct (in_list "Value" (columns df)); [reflexivity|].
  destruct (column_index "CreateTime" (columns df)); [exact I | reflexivity].
Qed.

Lemma sheet_loop_source rev file source source' sheets all_data all_data' out :
  (sheet_loop rev file source sheets all_data out).2
  = (sheet_loop rev file source' sheets all_data' out).2
  /\ (sheet_loop rev file source sheets all_data out).1.2
     = (sheet_loop rev file source' sheets all_data' out).1.2.
Proof.
  revert all_data all_data' out.
  induction sheets as [|sh rest IH]; intros all_data all_data' out;
    [split; reflexivity|].
  simpl. pose proof (extract_sheet_source rev source source' sh) as Hs.
  destruct (extract_sheet rev source sh) as [[m|]|e],
           (extract_sheet rev source' sh) as [[m'|]|e']; try contradiction.
  - apply IH.
  - apply IH.
  - subst. split; reflexivity.
Qed.

(** The loop of the Streamlit revisions is the per-file contributions put
    end to end. *)
Lemma file_loop_flat (a : streamlit) uploaded_files all_data shown :
  Assembler.file_loop a uploaded_files all_data shown
  = (all_data ++ flat_map (file_frames (rev_of a) true) uploaded_files,
     shown ++ flat_map (file_errors a) uploaded_files).
Proof.
  revert all_data shown.
  induction uploaded_files as [|f rest IH]; intros all_data shown.
  - simpl. now rewrite !app_nil_r.
  - simpl. unfold file_frames at 1, file_errors at 1, file_failure.
    destruct (book f) as [sheets|e].
    + rewrite sheet_loop_acc.
      pose proof (sheet_loop_source (rev_of a) (name f) (Some (name f)) None
                    sheets [] [] []) as [He _].
      destruct (sheet_loop (rev_of a) (name f) (Some (name f)) sheets [] [])
        as [[added printed] e].
      simpl in He. rewrite <- He. simpl.
      destruct e as [e|]; rewrite IH; simpl; now rewrite <- !app_assoc.
    + simpl. rewrite IH. now rewrite <- !app_assoc.
Qed.

(** Every record the extractor yields is classified by the revision's own
    station and direction functions, comes from a target column and is on
    the side the sheet name gives. *)
Lemma melt_classified rev side source id_col df value_vars r :
  Forall (fun jc => is_target rev (snd jc) = true) value_vars ->
  In r (melt rev side source id_col df value_vars) ->
  Station_Generic r = get_station_name rev (Station_Raw r)
  /\ Direction r = get_direction (Station_Raw r)
  /\ is_target rev (Station_Raw r) = true
  /\ Side r = side /\ Source r = source.
Proof.
  unfold melt. intros Htargets Hr.
  apply in_flat_map in Hr as [jc [Hjc Hr]].
  unfold melt_column in Hr. apply in_map_iff in Hr as [row [<- _]]. simpl.
  rewrite Forall_forall in Htargets.
  repeat split; try reflexivity. apply Htargets. now apply list_elem_of_In.
Qed.

Lemma target_columns_are_targets rev cols :
  Forall (fun jc => is_target rev (snd jc) = true) (target_columns rev cols).
Proof.
  apply Forall_forall. intros jc Hjc. apply list_elem_of_In in Hjc.
  unfold target_columns in Hjc. now apply filter_In in Hjc as [_ Hjc].
Qed.

Lemma extract_sheet_records rev source sh melted r :
  extract_sheet rev source sh = Ok (Some melted) -> In r melted ->
  sheet_allowed rev (sheet_name sh) = true
  /\ Side r = side_of (sheet_name sh) /\ Source r = source
  /\ classified rev r.
Proof.
  unfold extract_sheet, extract_allowed, classified.
  destruct (sheet_allowed rev (sheet_name sh)); simpl; [|discriminate].
  destruct (read_excel sh (find_header_row rev sh)) as [df|e]; [|discriminate].
  pose proof (target_columns_are_targets rev (columns df)) as Htargets.
  destruct (target_columns rev (columns df)) as [|jc tc]; [discriminate|].
  destruct (in_list "Value" (columns df)); [discriminate|].
  destruct (column_index "CreateTime" (columns df)) as [id_col|]; [|discriminate].
  intros [= <-] Hr.
  destruct (melt_classified rev (side_of (sheet_name sh)) source id_col df
              (jc :: tc) r Htargets Hr) as (Hst & Hdir & Htar & Hside & Hsrc).
  repeat split; try assumption.
  rewrite Hside. unfold side_of. destruct (str_in "-R" (sheet_name sh)); auto.
Qed.

Lemma sheet_loop_classified rev file source sheets all_data out :
  Forall (Forall (classified rev)) all_data ->
  Forall (Forall (classified rev))
         (sheet_loop rev file source sheets all_data out).1.1.
Proof.
  revert all_data out. induction sheets as [|sh rest IH]; intros all_data out Had.
  - exact Had.
  - simpl. destruct (extract_sheet rev source sh) as [[melted|]|e] eqn:E.
    + apply IH. apply Forall_app. split; [exact Had|].
      constructor; [|constructor].
      apply Forall_forall. intros r Hr. apply list_elem_of_In in Hr.
      now destruct (extract_sheet_records _ _ _ _ _ E Hr) as (_ & _ & _ & Hc).
    + now apply IH.
    + exact Had.
Qed.

Lemma file_frames_classified rev source f :
  Forall (Forall (classified rev)) (file_frames rev source f).
Proof.
  unfold file_frames. destruct (book f) as [sheets|e]; [|constructor].
  apply sheet_loop_classified. constructor.
Qed.

Lemma all_data_classified rev source files r :
  In r (concat (flat_map (file_frames rev source) files)) -> classified rev r.
Proof.
  intros Hr. apply in_concat in Hr as [frame_rows [Hf Hr]].
  apply in_flat_map in Hf as [f [_ Hf]].
  pose proof (file_frames_classified rev source f) as Hall.
  rewrite Forall_forall in Hall. apply list_elem_of_In in Hf.
  specialize (Hall _ Hf). rewrite Forall_forall in Hall.
  apply Hall. now apply list_elem_of_In.
Qed.

End LoopFacts.

(** ** The assembled table *)

Section AssemblerFacts.

Context `{Pandas}.

Lemma rows_of_assemble all_data :
  rows_of (assemble all_data) = dropna (map coerce_value (concat all_data)).
Proof. destruct all_data; reflexivity. Qed.

Lemma dropna_In rows r :
  In r (dropna rows)
  <-> In r rows /\ (exists v, Value r = Some v) /\ (exists st, Station_Generic r = Some st).
Proof.
  unfold dropna. rewrite filter_In, andb_true_iff. unfold present.
  destruct (Value r) as [v|], (Station_Generic r) as [st|].
  - split; [intros [Hin _]; eauto | tauto].
  - split; [intros [_ [_ [=]]] | intros [_ [_ [st [=]]]]].
  - split; [intros [_ [[=] _]] | intros [_ [[v [=]] _]]].
  - split; [intros [_ [[=] _]] | intros [_ [[v [=]] _]]].
Qed.

Lemma process_uploaded_files_flat (a : streamlit) uploaded_files :
  process_uploaded_files a uploaded_files
  = (assemble (flat_map (file_frames (rev_of a) true) uploaded_files),
     flat_map (file_errors a) uploaded_files).
Proof.
  unfold process_uploaded_files. now rewrite file_loop_flat.
Qed.

End AssemblerFacts.

(** C4: every record of the assembled table has a numeric, non-missing
    Value and a non-missing station, one of the six canonical ones; the
    table is the concatenated records, coerced, minus exactly those whose
    Value or station is missing, so a record whose CreateTime did not parse
    is kept when its Value and station are there. *)
Theorem final_table_invariant `{Pandas} (a : streamlit) (uploaded_files : list excel_file) :
  let all_data := (Assembler.file_loop a uploaded_files [] []).1 in
  let final_df := rows_of (process_uploaded_files a uploaded_files).1 in
  (forall r, In r final_df ->
     exists v st,
       Value r = Some v /\ Station_Generic r = Some st /\ In st station_order)
  /\ final_df = dropna (map coerce_value (concat all_data))
  /\ (forall m, In m (concat all_data) ->
        (In (coerce_value m) final_df
         <-> (exists v, to_numeric (Value m) = Some v)
             /\ (exists st, Station_Generic m = Some st)))
  /\ (forall m v st,
        In m (concat all_data) -> CreateTime m = None ->
        to_numeric (Value m) = Some v -> Station_Generic m = Some st ->
        In (coerce_value m) final_df /\ CreateTime (coerce_value m) = None).
Proof.
  intros all_data final_df.
  assert (Hdata : all_data = flat_map (file_frames (rev_of a) true) uploaded_files).
  { unfold all_data. now rewrite file_loop_flat. }
  assert (Hfinal : final_df = dropna (map coerce_value (concat all_data))).
  { unfold final_df. rewrite process_uploaded_files_flat. simpl.
    now rewrite rows_of_assemble, Hdata. }
  assert (Hin : forall m, In m (concat all_data) ->
            (In (coerce_value m) final_df
             <-> (exists v, to_numeric (Value m) = Some v)
                 /\ (exists st, Station_Generic m = Some st))).
  { intros m Hm. rewrite Hfinal, dropna_In. simpl. split; [tauto|].
    intros Hok. split; [|exact Hok]. apply in_map_iff. eauto. }
  split; [|split; [exact Hfinal | split; [exact Hin|]]].
  - intros r Hr. rewrite Hfinal in Hr.
    apply dropna_In in Hr as (Hr & [v Hv] & [st Hst]).
    exists v, st. split; [exact Hv | split; [exact Hst|]].
    apply in_map_iff in Hr as [m [<- Hm]]. simpl in Hst.
    rewrite Hdata in Hm. apply all_data_classified in Hm as [Hgen _].
    rewrite Hgen in Hst. eapply get_station_name_in_order. exact Hst.
  - intros m v st Hm Htime Hv Hst. split; [|exact Htime].
    apply Hin; eauto.
Qed.

(** ** Failures of single files *)

Section FailureFacts.

Context `{Pandas}.

(** In 0210v2 a file that [pd.ExcelFile] cannot open leaves no trace: the
    loop goes on as if the file were not in the folder. *)
Lemma local_file_loop_skips before bad after e all_data out :
  book bad = Raise e ->
  LocalScript.file_loop (before ++ bad :: after) all_data out
  = LocalScript.file_loop (before ++ after) all_data out.
Proof.
  intros Hbad. revert all_data out.
  induction before as [|f before IH]; intros all_data out; simpl.
  - now rewrite Hbad.
  - destruct (book f) as [sheets|e']; [|apply IH].
    destruct (sheet_loop Rev0210v2 (name f) None sheets all_data out)
      as [[all_data' out'] [e'|]]; [reflexivity | apply IH].
Qed.

(** When it returns, the loop of 0210v2 has gathered the per-file frames. *)
Lemma local_file_loop_flat excel_files all_data out out' gathered :
  LocalScript.file_loop excel_files all_data out = (out', Ok gathered) ->
  gathered = all_data ++ flat_map (file_frames Rev0210v2 false) excel_files.
Proof.
  revert all_data out. induction excel_files as [|f rest IH]; intros all_data out.
  - simpl. intros [= _ <-]. now rewrite app_nil_r.
  - simpl. unfold file_frames at 1. destruct (book f) as [sheets|e].
    + rewrite sheet_loop_acc.
      destruct (sheet_loop Rev0210v2 (name f) None sheets [] [])
        as [[added printed] [e|]]; [discriminate|].
      intros Hloop. apply IH in Hloop. rewrite Hloop. simpl.
      now rewrite <- app_assoc.
    + intros Hloop. apply IH in Hloop. exact Hloop.
Qed.

End FailureFacts.

(** C5, as the code has it. In the Streamlit revisions every exception
    raised while one uploaded file is processed, by [pd.ExcelFile] or while
    a sheet of the file is read and reshaped, is caught for that file and
    shown as an error that names the file; the frames and the errors of a
    batch are those of its files, each taken alone, put end to end, so no
    file changes what another contributes. In 0210v2 a file that cannot be
    opened is skipped without any report and the loop continues with the
    remaining files. *)
Theorem file_failures_are_isolated `{Pandas} :
  (forall (a : streamlit) (before after : list excel_file) (f : excel_file),
      let frames := file_frames (rev_of a) true in
      let out := process_uploaded_files a (before ++ f :: after) in
      out.1 = assemble (flat_map frames before ++ frames f ++ flat_map frames after)
      /\ out.2 = flat_map (file_errors a) before ++ file_errors a f
                 ++ flat_map (file_errors a) after
      /\ (forall e, file_failure (rev_of a) f = Some e ->
            file_errors a f = [FileError (name f) e])
      /\ (file_failure (rev_of a) f = None -> file_errors a f = []))
  /\ (forall (before after : list excel_file) (bad : excel_file) (e : exn)
             all_data out,
        book bad = Raise e ->
        LocalScript.file_loop (before ++ bad :: after) all_data out
        = LocalScript.file_loop (before ++ after) all_data out).
Proof.
  split.
  - intros a before after f frames out. unfold out, frames.
    rewrite process_uploaded_files_flat. simpl.
    rewrite !flat_map_app. simpl. split; [reflexivity|]. split; [reflexivity|].
    unfold file_errors. split.
    + intros e ->. reflexivity.
    + intros ->. reflexivity.
  - intros before after bad e all_data out Hbad.
    now apply local_file_loop_skips with (e := e).
Qed.

Import Examples.

(** 0210v2 on a folder whose only file cannot be opened: one line is
    printed, the count of files, and nothing names the file. *)
Lemma local_script_skips_silently :
  file_failure (H := plain_pandas) Rev0210v2 bad_file = Some ReadError
  /\ LocalScript.process_data (H := plain_pandas) [bad_file]
     = ([FoundFiles 1], Ok NoColumns)
  /\ ~ exists l,
         In l (LocalScript.process_data (H := plain_pandas) [bad_file]).1
         /\ mentions_file (name bad_file) l.
Proof.
  split; [reflexivity|]. split; [reflexivity|].
  intros [l [Hl Hm]]. simpl in Hl. destruct Hl as [<-|[]]. exact Hm.
Qed.

(** ** The gate on the sheet name and the side *)

Section GateFacts.

Lemma side_of_spec sheet :
  (side_of sheet = "Right" <-> occurs "-R" sheet)
  /\ (side_of sheet = "Left" <-> ~ occurs "-R" sheet).
Proof.
  unfold side_of. rewrite <- str_in_spec.
  destruct (str_in "-R" sheet); split; split; try discriminate; try reflexivity;
    intros Hx; try (exfalso; now apply Hx); congruence.
Qed.

Lemma allowed_names_strip sheet :
  In sheet allow_set -> strip sheet = sheet.
Proof.
  unfold allow_set. simpl. intros [<-|[<-|[<-|[<-|[]]]]]; reflexivity.
Qed.

Lemma sheet_allowed_spec rev sheet :
  sheet_allowed rev sheet = true
  <-> In (if later rev then strip sheet else sheet) allow_set.
Proof.
  unfold sheet_allowed. destruct (later rev); apply in_list_spec.
Qed.

Lemma sheet_allowed_stripped rev sheet :
  sheet_allowed rev sheet = true -> In (strip sheet) allow_set.
Proof.
  rewrite sheet_allowed_spec. destruct (later rev); [auto|].
  intros Hin. now rewrite (allowed_names_strip _ Hin).
Qed.

Lemma side_of_allowed rev sheet :
  sheet_allowed rev sheet = true ->
  (side_of sheet = "Right" <-> In (strip sheet) ["RAA-R"; "IPQC-R"]).
Proof.
  intros Hgate. apply sheet_allowed_stripped in Hgate.
  unfold side_of. rewrite <- (str_in_strip "-R" sheet) by (reflexivity || discriminate).
  unfold allow_set in Hgate. simpl in Hgate. simpl.
  destruct Hgate as [<-|[<-|[<-|[<-|[]]]]]; simpl;
    split; intros Hx; try discriminate; try tauto;
    destruct Hx as [Hx|[Hx|[]]]; discriminate.
Qed.

End GateFacts.

(** C7, as the code has it. A sheet that does not pass the gate is skipped
    without error. Revisions 0210v1.1 and 0211v1 let a sheet pass exactly
    when its name, stripped of surrounding whitespace, is one of [RAA-R],
    [RAA-L], [IPQC-R], [IPQC-L]; revisions 0210v1 and 0210v2 compare the
    name as it is. A sheet that passes is read and reshaped, and all its
    records carry the side of the sheet: [Right] when the name contains
    [-R], that is, when the stripped name is [RAA-R] or [IPQC-R], and [Left]
    otherwise. *)
Theorem sheet_gate_and_side `{Pandas} (rev : revision) (source : option string)
    (sh : sheet) :
  let sheet := sheet_name sh in
  (sheet_allowed rev sheet = true
   <-> In (if later rev then strip sheet else sheet) allow_set)
  /\ (sheet_allowed rev sheet = false -> extract_sheet rev source sh = Ok None)
  /\ (sheet_allowed rev sheet = true ->
        extract_sheet rev source sh = extract_allowed rev source sh
        /\ In (strip sheet) allow_set
        /\ (side_of sheet = "Right" <-> In (strip sheet) ["RAA-R"; "IPQC-R"])
        /\ (forall melted r,
              extract_sheet rev source sh = Ok (Some melted) -> In r melted ->
              Side r = side_of sheet))
  /\ (side_of sheet = "Right" <-> occurs "-R" sheet)
  /\ (side_of sheet = "Left" <-> ~ occurs "-R" sheet).
Proof.
  intros sheet. split; [apply sheet_allowed_spec|].
  split; [|split; [|apply side_of_spec]].
  - intros Hgate. unfold extract_sheet. fold sheet. now rewrite Hgate.
  - intros Hgate. split; [|split; [|split]].
    + unfold extract_sheet. fold sheet. now rewrite Hgate.
    + now apply sheet_allowed_stripped with (rev := rev).
    + now apply side_of_allowed with (rev := rev).
    + intros melted r Hm Hr.
      now destruct (extract_sheet_records _ _ _ _ _ Hm Hr) as (_ & Hside & _).
Qed.

(** The sheet name [" RAA-R "] is in the allow-set once stripped, and
    0210v1 skips the sheet: the file yields nothing, where 0211v1 reads
    one record from it. *)
Lemma unstripped_gate_skips_padded_name :
  In (strip " RAA-R ") allow_set
  /\ sheet_allowed Rev0210v1 " RAA-R " = false
  /\ extract_sheet (H := plain_pandas) Rev0210v1 (Some "padded.xlsx")
       {| sheet_name := " RAA-R "; cells := Ok right_grid |} = Ok None
  /\ process_uploaded_files (H := plain_pandas) St0210v1 [padded_file]
     = (NoColumns, [])
  /\ length (rows_of (process_uploaded_files (H := plain_pandas) St0211v1
                        [padded_file]).1) = 1.
Proof. vm_compute. tauto. Qed.

(** ** The sort key of 0210v2 *)

Section SortKeyFacts.

Import LocalScript.

(** The dictionary holds each station at its position in [station_order]
    and nothing else. *)
Lemma order_map_lookup (station : string) (i : nat) :
  order_map !! station = Some i <-> station_order !! i = Some station.
Proof.
  unfold order_map, station_order, enumerate. simpl. split.
  - rewrite !lookup_insert. repeat case_decide; subst;
      try (intros [= <-]; reflexivity).
  - do 6 (destruct i as [|i]; [intros [= <-]; reflexivity|]).
    discriminate.
Qed.

Lemma order_map_missing (station : string) :
  order_map !! station = None <-> ~ In station station_order.
Proof.
  split.
  - intros Hnone Hin. apply list_elem_of_In, list_elem_of_lookup in Hin as [i Hi].
    apply order_map_lookup in Hi. congruence.
  - intros Hout. destruct (order_map !! station) as [i|] eqn:E; [|reflexivity].
    exfalso. apply Hout. apply order_map_lookup in E.
    apply list_elem_of_In, list_elem_of_lookup. eauto.
Qed.

Lemma station_index_bound (station : string) (i : nat) :
  station_order !! i = Some station -> i < 6.
Proof. intros Hi. apply lookup_lt_Some in Hi. exact Hi. Qed.

Lemma get_sort_key_sides row :
  (Side row = "Left" -> get_sort_key row = base_order row)
  /\ (Side row <> "Left" -> get_sort_key row = base_order row + 100).
Proof.
  unfold get_sort_key, base_order. destruct (String.eqb_spec (Side row) "Left").
  - split; [reflexivity | congruence].
  - split; [congruence | reflexivity].
Qed.

Lemma base_order_named row i station :
  station_order !! i = Some station -> Station_Generic row = Some station ->
  base_order row = i.
Proof.
  intros Hi Hst. unfold base_order. rewrite Hst.
  apply order_map_lookup in Hi. now rewrite Hi.
Qed.

Lemma base_order_bound row : base_order row <= 99.
Proof.
  unfold base_order. destruct (Station_Generic row) as [station|]; [|lia].
  destruct (order_map !! station) as [i|] eqn:E; simpl; [|lia].
  apply order_map_lookup, station_index_bound in E. lia.
Qed.

End SortKeyFacts.

(** C6: the Sort Key of a record is the index of its station in
    [PreAA_1, PreAA_2, AA, AfterExp, LooseClaws, AfterBaking], plus 0 on the
    left side and plus 100 on the right side. A station that is not in the
    list gets the index 99, above every named station. Hence every Left
    record has a smaller key than every Right record, and on one side the
    keys follow the canonical station sequence. Every record of the table
    [process_data] returns has a named station, a side, and this key. The
    key is a number for every row: nothing is raised. *)
Theorem sort_key_spec `{Pandas} :
  (forall row i station,
      station_order !! i = Some station -> Station_Generic row = Some station ->
      (Side row = "Left" -> LocalScript.get_sort_key row = i + 0)
      /\ (Side row = "Right" -> LocalScript.get_sort_key row = i + 100))
  /\ (forall row,
        (Station_Generic row = None
         \/ exists station,
              Station_Generic row = Some station /\ ~ In station station_order) ->
        (Side row = "Left" -> LocalScript.get_sort_key row = 99 + 0)
        /\ (Side row = "Right" -> LocalScript.get_sort_key row = 99 + 100))
  /\ (forall i station, station_order !! i = Some station -> i < 99)
  /\ (forall r1 r2,
        Side r1 = "Left" -> Side r2 = "Right" ->
        LocalScript.get_sort_key r1 < LocalScript.get_sort_key r2)
  /\ (forall r1 r2 i j s1 s2,
        Side r1 = Side r2 ->
        station_order !! i = Some s1 -> Station_Generic r1 = Some s1 ->
        station_order !! j = Some s2 -> Station_Generic r2 = Some s2 ->
        (i < j <-> LocalScript.get_sort_key r1 < LocalScript.get_sort_key r2))
  /\ (forall excel_files out final_df k,
        LocalScript.process_data excel_files = (out, Ok final_df) ->
        In k (rows_of final_df) ->
        LocalScript.Sort_Key k = LocalScript.get_sort_key (LocalScript.base k)
        /\ exists i station,
             station_order !! i = Some station
             /\ Station_Generic (LocalScript.base k) = Some station
             /\ ((Side (LocalScript.base k) = "Left" /\ LocalScript.Sort_Key k = i + 0)
                 \/ (Side (LocalScript.base k) = "Right"
                     /\ LocalScript.Sort_Key k = i + 100))).
Proof.
  assert (Hnamed : forall row i station,
             station_order !! i = Some station -> Station_Generic row = Some station ->
             (Side row = "Left" -> LocalScript.get_sort_key row = i + 0)
             /\ (Side row = "Right" -> LocalScript.get_sort_key row = i + 100)).
  { intros row i station Hi Hst.
    pose proof (get_sort_key_sides row) as [Hl Hr].
    rewrite (base_order_named row i station Hi Hst) in Hl, Hr.
    split; intros Hside.
    - rewrite (Hl Hside). lia.
    - apply Hr. rewrite Hside. discriminate. }
  split; [exact Hnamed|]. split; [|split; [|split; [|split]]].
  - intros row Hunknown.
    assert (Hbase : base_order row = 99).
    { unfold base_order. destruct Hunknown as [->|[station [-> Hout]]]; [reflexivity|].
      apply order_map_missing in Hout. now rewrite Hout. }
    pose proof (get_sort_key_sides row) as [Hl Hr]. rewrite Hbase in Hl, Hr.
    split; intros Hside.
    + rewrite (Hl Hside). lia.
    + apply Hr. rewrite Hside. discriminate.
  - intros i station Hi. apply station_index_bound in Hi. lia.
  - intros r1 r2 H1 H2.
    pose proof (get_sort_key_sides r1) as [Hl _].
    pose proof (get_sort_key_sides r2) as [_ Hr].
    rewrite (Hl H1), Hr by (rewrite H2; discriminate).
    pose proof (base_order_bound r1). lia.
  - intros r1 r2 i j s1 s2 Hside Hi H1 Hj H2.
    pose proof (get_sort_key_sides r1) as [Hl1 Hr1].
    pose proof (get_sort_key_sides r2) as [Hl2 Hr2].
    rewrite (base_order_named r1 i s1 Hi H1) in Hl1, Hr1.
    rewrite (base_order_named r2 j s2 Hj H2) in Hl2, Hr2.
    destruct (String.eqb_spec (Side r1) "Left") as [E|E].
    + rewrite (Hl1 E), Hl2 by congruence. reflexivity.
    + rewrite (Hr1 E), Hr2 by congruence. lia.
  - intros excel_files out final_df k Hrun Hk.
    unfold LocalScript.process_data in Hrun.
    destruct excel_files as [|f rest]; [injection Hrun as _ <-; destruct Hk|].
    destruct (LocalScript.file_loop (f :: rest) [] [FoundFiles (length (f :: rest))])
      as [out' [gathered|e]] eqn:Hloop; [|discriminate].
    injection Hrun as _ <-.
    apply local_file_loop_flat in Hloop. rewrite app_nil_l in Hloop.
    assert (Hrows : rows_of (match assemble gathered with
                             | NoColumns => NoColumns
                             | Frame rows => Frame (map LocalScript.with_keys rows)
                             end)
                    = map LocalScript.with_keys (rows_of (assemble gathered))).
    { destruct (assemble gathered); reflexivity. }
    rewrite Hrows, rows_of_assemble in Hk.
    apply in_map_iff in Hk as [r [<- Hr]]. simpl.
    split; [reflexivity|].
    apply dropna_In in Hr as (Hr & _ & [station Hst]).
    apply in_map_iff in Hr as [m [<- Hm]]. simpl in Hst.
    rewrite Hloop in Hm. apply all_data_classified in Hm as (Hgen & _ & _ & Hside).
    assert (Hin : In station station_order).
    { rewrite Hgen in Hst. eapply get_station_name_in_order. exact Hst. }
    apply list_elem_of_In, list_elem_of_lookup in Hin as [i Hi].
    exists i, station. split; [exact Hi|]. split; [exact Hst|].
    destruct (Hnamed (coerce_value m) i station Hi Hst) as [Hl Hr'].
    destruct Hside as [Hside|Hside]; [left | right]; split; auto.
Qed.

(** ** Batches that yield nothing *)

Section EmptyBatchFacts.

Context `{Pandas} `{Seaborn}.

Lemma target_columns_none rev (header_row : list cell) :
  Forall (fun c => is_target rev (header_label c) = false) header_row ->
  target_columns rev (map header_label header_row) = [].
Proof.
  intros Hnone. unfold target_columns, enumerate.
  set (cols := map header_label header_row).
  assert (Hcols : forall c, In c cols -> is_target rev c = false).
  { intros c Hc. apply in_map_iff in Hc as [x [<- Hx]].
    rewrite Forall_forall in Hnone. apply Hnone. now apply list_elem_of_In. }
  generalize (seq 0 (length cols)). induction cols as [|c cols IH]; intros js.
  - destruct js; reflexivity.
  - destruct js as [|j js]; [reflexivity|]. simpl.
    rewrite (Hcols c) by now left. apply IH. intros c' Hc'. apply Hcols. now right.
Qed.

Lemma barren_extract rev source sh :
  barren rev sh -> extract_sheet rev source sh = Ok None.
Proof.
  unfold extract_sheet. intros [Hgate|[g [Hcells Hnone]]].
  - now rewrite Hgate.
  - destruct (sheet_allowed rev (sheet_name sh)); [simpl|reflexivity].
    unfold extract_allowed, read_excel. rewrite Hcells. cbn [columns].
    rewrite target_columns_none; [reflexivity|].
    destruct (nth_in_or_default (find_header_row rev sh) g []) as [Hin| ->].
    + rewrite Forall_forall in Hnone. apply Hnone. now apply list_elem_of_In.
    + constructor.
Qed.

Lemma barren_sheet_loop rev file source sheets :
  Forall (barren rev) sheets ->
  (sheet_loop rev file source sheets [] []).1.1 = []
  /\ (sheet_loop rev file source sheets [] []).2 = None.
Proof.
  induction sheets as [|sh rest IH]; intros Hall; [split; reflexivity|].
  apply Forall_cons in Hall as [Hsh Hrest]. simpl.
  rewrite (barren_extract rev source sh Hsh), sheet_loop_acc.
  destruct (IH Hrest) as [Hframes Hnone].
  destruct (sheet_loop rev file source rest [] []) as [[added printed] e].
  simpl in *. now subst.
Qed.

Lemma barren_file_contributes_nothing (a : streamlit) f :
  barren_file (rev_of a) f ->
  file_frames (rev_of a) true f = [] /\ file_errors a f = [].
Proof.
  intros [sheets [Hbook Hall]]. unfold file_errors, file_frames, file_failure.
  rewrite Hbook.
  destruct (barren_sheet_loop (rev_of a) (name f) (Some (name f)) sheets Hall) as [-> _].
  destruct (barren_sheet_loop (rev_of a) (name f) None sheets Hall) as [_ ->].
  split; reflexivity.
Qed.

Lemma barren_batch (a : streamlit) uploaded_files :
  Forall (barren_file (rev_of a)) uploaded_files ->
  process_uploaded_files a uploaded_files = (NoColumns, []).
Proof.
  intros Hall. rewrite process_uploaded_files_flat.
  assert (Hnothing : flat_map (file_frames (rev_of a) true) uploaded_files = []
                     /\ flat_map (file_errors a) uploaded_files = []).
  { induction uploaded_files as [|f rest IH]; [split; reflexivity|].
    apply Forall_cons in Hall as [Hf Hrest]. simpl.
    destruct (barren_file_contributes_nothing a f Hf) as [-> ->].
    now apply IH. }
  destruct Hnothing as [-> ->]. reflexivity.
Qed.

(** With an empty table the main branch shows the per-file errors and then
    the one message that the data cannot be parsed; [generate_ppt] is not
    called. *)
Lemma main_empty_table (a : streamlit) f rest :
  empty (process_uploaded_files a (f :: rest)).1 = true ->
  main a (f :: rest) true
  = (process_uploaded_files a (f :: rest)).2 ++ [CannotParse].
Proof.
  unfold main. destruct (process_uploaded_files a (f :: rest)) as [df shown].
  simpl. now intros ->.
Qed.

End EmptyBatchFacts.

(** C8, as the code has it. [process_uploaded_files] returns the table
    without columns, and shows nothing, for zero files and for files whose
    sheets all fail the gate or have no target column; it raises in no
    case. When at least one file is uploaded, the button is pressed and the
    table is empty, the main branch ends with the cannot-parse error, after
    the errors of the files that failed, and shows neither a success
    message nor a report nor a traceback; for a batch of such barren files
    that error is the only message. With zero files the main branch shows
    nothing: the button exists only when a file is uploaded. *)
Theorem empty_batch_outcome `{Pandas} `{Seaborn} (a : streamlit)
    (uploaded_files : list excel_file) :
  process_uploaded_files a [] = (NoColumns, [])
  /\ (Forall (barren_file (rev_of a)) uploaded_files ->
        process_uploaded_files a uploaded_files = (NoColumns, [])
        /\ (uploaded_files <> [] -> main a uploaded_files true = [CannotParse]))
  /\ (uploaded_files <> [] ->
      empty (process_uploaded_files a uploaded_files).1 = true ->
        main a uploaded_files true
        = (process_uploaded_files a uploaded_files).2 ++ [CannotParse]
        /\ (forall m, In m (main a uploaded_files true) ->
              m = CannotParse \/ exists file e, m = FileError file e))
  /\ (forall button, main a [] button = [])
  /\ main a uploaded_files false = [].
Proof.
  split; [reflexivity|]. split; [|split; [|split]].
  - intros Hall. pose proof (barren_batch a uploaded_files Hall) as Hrun.
    split; [exact Hrun|].
    destruct uploaded_files as [|f rest]; [congruence|]. intros _.
    rewrite main_empty_table; now rewrite Hrun.
  - destruct uploaded_files as [|f rest]; [congruence|]. intros _ Hempty.
    rewrite (main_empty_table a f rest Hempty). split; [reflexivity|].
    intros m Hm. apply in_app_or in Hm as [Hm|[<-|[]]]; [right | now left].
    rewrite process_uploaded_files_flat in Hm. cbn [snd] in Hm.
    apply in_flat_map in Hm as [g [_ Hm]]. unfold file_errors in Hm.
    destruct (file_failure (rev_of a) g) as [e|]; [|destruct Hm].
    destruct Hm as [<-|[]]. eauto.
  - intros button. reflexivity.
  - destruct uploaded_files; reflexivity.
Qed.

(** With no file in the uploader the run shows nothing at all, so not the
    cannot-parse error either, although the assembler would return the
    empty table. *)
Lemma no_upload_shows_nothing :
  process_uploaded_files (H := plain_pandas) St0211v1 [] = (NoColumns, [])
  /\ empty (process_uploaded_files (H := plain_pandas) St0211v1 []).1 = true
  /\ main (H := plain_pandas) (H0 := strict_seaborn) St0211v1 [] true = []
  /\ ~ In CannotParse
          (main (H := plain_pandas) (H0 := strict_seaborn) St0211v1 [] true).
Proof.
  split; [reflexivity|]. split; [reflexivity|]. split; [reflexivity|].
  intros [].
Qed.

(** ** The latest charts *)

Section LatestFacts.

Context `{Seaborn}.

Lemma date_monotone (t u : Z) : (t <= u)%Z -> (date t <= date u)%Z.
Proof. intros Hle. unfold date. apply Z.div_le_mono; lia. Qed.

Lemma max_time_none df :
  max_time df = None <-> (forall r, In r df -> CreateTime r = None).
Proof.
  induction df as [|r df IH]; simpl.
  - split; [intros _ r [] | reflexivity].
  - destruct (CreateTime r) as [t|] eqn:Et.
    + split.
      * destruct (max_time df); discriminate.
      * intros Hall. specialize (Hall r (or_introl eq_refl)). congruence.
    + rewrite IH. split.
      * intros Hall r' [<-|Hr']; auto.
      * intros Hall r' Hr'. apply Hall. now right.
Qed.

Lemma max_time_some df m :
  max_time df = Some m ->
  (exists r, In r df /\ CreateTime r = Some m)
  /\ (forall r t, In r df -> CreateTime r = Some t -> (t <= m)%Z).
Proof.
  revert m. induction df as [|r df IH]; intros m; simpl; [discriminate|].
  destruct (CreateTime r) as [t|] eqn:Et.
  - destruct (max_time df) as [m'|] eqn:Em.
    + intros [= <-]. destruct (IH m' eq_refl) as [[r' [Hr' Ht']] Hmax]. split.
      * destruct (Z.max_spec t m') as [[_ ->]|[_ ->]]; [exists r' | exists r]; auto.
      * intros r0 t0 [<-|Hr0] Ht0.
        -- rewrite Et in Ht0. injection Ht0 as <-. lia.
        -- specialize (Hmax r0 t0 Hr0 Ht0). lia.
    + intros [= <-]. split; [exists r; auto|].
      intros r0 t0 [<-|Hr0] Ht0.
      * rewrite Et in Ht0. injection Ht0 as <-. lia.
      * pose proof (proj1 (max_time_none df) Em r0 Hr0). congruence.
  - intros Hm. destruct (IH m Hm) as [[r' [Hr' Ht']] Hmax]. split.
    + exists r'. auto.
    + intros r0 t0 [<-|Hr0] Ht0; [congruence | eauto].
Qed.

(** The day of the latest time stamp is the latest day, and the only one. *)
Lemma latest_day_of_max_time df d :
  is_latest_day df d <-> option_map date (max_time df) = Some d.
Proof.
  split.
  - intros [[r [t [Hr [Ht Hd]]]] Hmax].
    destruct (max_time df) as [m|] eqn:Em.
    + simpl. f_equal.
      destruct (max_time_some df m Em) as [[r' [Hr' Ht']] Hle].
      pose proof (Hmax r' m Hr' Ht') as Hupper.
      pose proof (date_monotone t m (Hle r t Hr Ht)) as Hlower. lia.
    + pose proof (proj1 (max_time_none df) Em r Hr). congruence.
  - destruct (max_time df) as [m|] eqn:Em; [|discriminate].
    intros [= <-]. destruct (max_time_some df m Em) as [[r [Hr Ht]] Hle]. split.
    + exists r, m. auto.
    + intros r' t Hr' Ht'. apply date_monotone. eauto.
Qed.

Lemma on_date_spec latest_date (r : record (option Q)) :
  on_date latest_date r = true
  <-> exists t, CreateTime r = Some t /\ latest_date = Some (date t).
Proof.
  unfold on_date. destruct (CreateTime r) as [t|].
  - destruct latest_date as [d|].
    + rewrite Z.eqb_eq. split.
      * intros <-. eauto.
      * now intros [t' [[= <-] [= <-]]].
    + split; [discriminate | now intros [t' [_ [=]]]].
  - split; [discriminate | now intros [t [[=] _]]].
Qed.

(** The latest frame holds the records of the latest day. *)
Lemma latest_frame_spec df r :
  In r (List.filter (on_date (option_map date (max_time df))) df)
  <-> In r df /\ exists t, CreateTime r = Some t /\ is_latest_day df (date t).
Proof.
  rewrite filter_In, on_date_spec. split.
  - intros [Hr [t [Ht Hd]]]. split; [exact Hr|]. exists t. split; [exact Ht|].
    now apply latest_day_of_max_time.
  - intros [Hr [t [Ht Hd]]]. split; [exact Hr|]. exists t. split; [exact Ht|].
    now apply latest_day_of_max_time.
Qed.

(** Without a dated record no row is in the latest frame. *)
Lemma undated_latest_frame df :
  (forall r, In r df -> CreateTime r = None) ->
  option_map date (max_time df) = None
  /\ List.filter (on_date (option_map date (max_time df))) df = [].
Proof.
  intros Hnone. apply max_time_none in Hnone as Hmax. rewrite Hmax. simpl.
  split; [reflexivity|].
  induction df as [|r df IH]; [reflexivity|]. simpl.
  unfold on_date at 1. rewrite (Hnone r (or_introl eq_refl)).
  apply IH.
  - intros r' Hr'. apply Hnone. now right.
  - apply max_time_none. intros r' Hr'. apply Hnone. now right.
Qed.

Lemma is_nil_filter {A : Type} (f : A -> bool) (l : list A) :
  is_nil (List.filter f l) = negb (existsb f l).
Proof.
  induction l as [|x l IH]; [reflexivity|]. simpl.
  destruct (f x); [reflexivity | exact IH].
Qed.

Lemma has_direction_filter direction (f : record (option Q) -> bool) data :
  has_direction direction (List.filter f data) = true ->
  has_direction direction data = true.
Proof.
  unfold has_direction. rewrite !existsb_exists.
  intros [r [Hr Hd]]. apply filter_In in Hr as [Hr _]. eauto.
Qed.

(** 0210v1.1 and 0211v1 never ask seaborn for a panel without rows. *)
Lemma draw_boxplot_guarded a data t ylim :
  guards_empty a = true -> draw_boxplot a data t ylim = Ok (Boxplot data t ylim).
Proof.
  intros Hguard. unfold draw_boxplot, create_boxplot. simpl. rewrite Hguard.
  destruct (List.filter _ data) as [|rh dh]; destruct (List.filter _ data) as [|rv dv];
    simpl; rewrite ?andb_false_r; reflexivity.
Qed.

(** 0210v1 asks for both panels, whatever they hold. *)
Lemma draw_boxplot_unguarded a data t ylim :
  guards_empty a = false ->
  draw_boxplot a data t ylim
  = match boxplot_empty with
    | Some e =>
        if has_direction "H" data && has_direction "V" data
        then Ok (Boxplot data t ylim) else Raise e
    | None => Ok (Boxplot data t ylim)
    end.
Proof.
  intros Hguard. unfold draw_boxplot, create_boxplot, has_direction. simpl.
  rewrite Hguard. simpl. rewrite !is_nil_filter.
  destruct boxplot_empty as [e|];
    destruct (existsb (fun r => String.eqb (Direction r) "H") data),
             (existsb (fun r => String.eqb (Direction r) "V") data); reflexivity.
Qed.

(** When the buffer of a box plot is there. *)
Lemma draw_boxplot_returns a data t ylim :
  guards_empty a = true \/ boxplot_empty = None
  \/ (has_direction "H" data = true /\ has_direction "V" data = true) ->
  draw_boxplot a data t ylim = Ok (Boxplot data t ylim).
Proof.
  destruct (guards_empty a) eqn:Hguard; [intros _; now apply draw_boxplot_guarded|].
  rewrite (draw_boxplot_unguarded a data t ylim Hguard).
  intros [Hx|[->|[-> ->]]]; [discriminate | reflexivity |].
  now destruct boxplot_empty.
Qed.

Lemma draw_boxplot_raises a data t ylim e :
  guards_empty a = false -> boxplot_empty = Some e ->
  has_direction "H" data && has_direction "V" data = false ->
  draw_boxplot a data t ylim = Raise e.
Proof.
  intros Hguard He Hmiss.
  now rewrite (draw_boxplot_unguarded a data t ylim Hguard), He, Hmiss.
Qed.

(** A buffer returned is the box plot of the arguments. *)
Lemma draw_boxplot_chart a data t ylim c :
  draw_boxplot a data t ylim = Ok c -> c = Boxplot data t ylim.
Proof.
  unfold draw_boxplot. destruct (draw_panels (create_boxplot a data)); congruence.
Qed.

(** The presentation of a dataset whose latest charts are drawn: six
    buffers and three slides. *)
Lemma generate_ppt_drawn (a : streamlit) df :
  guards_empty a = false \/ df <> [] ->
  let latest_date := option_map date (max_time df) in
  let latest_df := List.filter (on_date latest_date) df in
  draw_boxplot a df OverallSummary None = Ok (Boxplot df OverallSummary None) ->
  draw_boxplot a latest_df (LatestData latest_date) None
  = Ok (Boxplot latest_df (LatestData latest_date) None) ->
  generate_ppt a (Frame df)
  = Ok {| image_buffers :=
            <["control_fixed" := ControlChart df fixed_control]>
              (<["control_auto" := ControlChart df None]>
                 (<["latest_fixed" :=
                      Boxplot latest_df (LatestData latest_date) fixed_box]>
                    (<["latest_auto" :=
                         Boxplot latest_df (LatestData latest_date) None]>
                       (<["overall_fixed" := Boxplot df OverallSummary fixed_box]>
                          (<["overall_auto" := Boxplot df OverallSummary None]>
                             ∅)))));
          slides := [(OverallSummary, "overall_auto", "overall_fixed");
                     (LatestData latest_date, "latest_auto", "latest_fixed");
                     (ControlChartTitle, "control_auto", "control_fixed")] |}.
Proof.
  intros Hcase latest_date latest_df Hoverall Hlatest.
  assert (Hfixed : forall data t, draw_boxplot a data t None = Ok (Boxplot data t None) ->
                     draw_boxplot a data t fixed_box = Ok (Boxplot data t fixed_box)).
  { intros data t. unfold draw_boxplot.
    destruct (draw_panels (create_boxplot a data)); [reflexivity | discriminate]. }
  unfold generate_ppt. rewrite Hoverall, (Hfixed _ _ Hoverall).
  unfold latest_charts.
  replace (guards_empty a && empty (Frame df)) with false.
  - fold latest_date. fold latest_df. rewrite Hlatest, (Hfixed _ _ Hlatest).
    reflexivity.
  - destruct Hcase as [->|Hne]; [reflexivity|].
    destruct df; [congruence | now rewrite andb_false_r].
Qed.

(** The presentation 0210v1.1 and 0211v1 make of the table that has columns
    and no row. *)
Lemma generate_ppt_fallback (a : streamlit) :
  guards_empty a = true ->
  generate_ppt a (Frame [])
  = Ok {| image_buffers :=
            <["control_fixed" := ControlChart [] fixed_control]>
              (<["control_auto" := ControlChart [] None]>
                 (<["latest_fixed" := Boxplot [] OverallSummary fixed_box]>
                    (<["latest_auto" := Boxplot [] OverallSummary None]>
                       (<["overall_fixed" := Boxplot [] OverallSummary fixed_box]>
                          (<["overall_auto" := Boxplot [] OverallSummary None]>
                             ∅)))));
          slides := [(OverallSummary, "overall_auto", "overall_fixed");
                     (LatestNA, "latest_auto", "latest_fixed");
                     (ControlChartTitle, "control_auto", "control_fixed")] |}.
Proof.
  intros Hguard. unfold generate_ppt.
  rewrite !(draw_boxplot_guarded a _ _ _ Hguard).
  unfold latest_charts, buffer. rewrite Hguard. cbn [empty andb].
  rewrite lookup_insert_ne by discriminate. rewrite lookup_insert_eq.
  rewrite lookup_insert_ne by discriminate. rewrite lookup_insert_eq.
  reflexivity.
Qed.

End LatestFacts.

(** C9. The latest frame holds exactly the records whose CreateTime falls
    on the maximum date present in the dataset, in the order of the
    dataset, and the two latest charts of every presentation
    [generate_ppt] returns for a dataset with records are drawn from it.
    That presentation is returned by 0210v1.1 and 0211v1 for every such
    dataset, and by 0210v1 whenever seaborn accepts a panel without rows or
    the latest day has records of both directions. For the dataset that has
    no record, 0210v1.1 and 0211v1 reuse the two overall charts as the
    latest charts, under the title N/A; and in every revision the run of an
    empty table does not reach [generate_ppt]: it shows the errors of the
    files that failed and the cannot-parse error, and nothing else. *)
Theorem latest_variant_spec `{Pandas} `{Seaborn} (a : streamlit)
    (df : list (record (option Q))) :
  let latest_date := option_map date (max_time df) in
  let latest_df := List.filter (on_date latest_date) df in
  (forall r, In r latest_df
             <-> In r df /\ exists t, CreateTime r = Some t /\ is_latest_day df (date t))
  /\ (forall d, is_latest_day df d <-> latest_date = Some d)
  /\ (guards_empty a = false \/ df <> [] ->
      (forall ppt, generate_ppt a (Frame df) = Ok ppt ->
         image_buffers ppt !! "latest_auto"
         = Some (Boxplot latest_df (LatestData latest_date) None)
         /\ image_buffers ppt !! "latest_fixed"
            = Some (Boxplot latest_df (LatestData latest_date) fixed_box))
      /\ (guards_empty a = true \/ boxplot_empty = None
          \/ (has_direction "H" latest_df = true
              /\ has_direction "V" latest_df = true) ->
          exists ppt, generate_ppt a (Frame df) = Ok ppt))
  /\ (guards_empty a = true ->
      exists ppt,
        generate_ppt a (Frame []) = Ok ppt
        /\ image_buffers ppt !! "latest_auto" = Some (Boxplot [] OverallSummary None)
        /\ image_buffers ppt !! "latest_auto" = image_buffers ppt !! "overall_auto"
        /\ image_buffers ppt !! "latest_fixed"
           = Some (Boxplot [] OverallSummary fixed_box)
        /\ image_buffers ppt !! "latest_fixed" = image_buffers ppt !! "overall_fixed"
        /\ slides ppt = [(OverallSummary, "overall_auto", "overall_fixed");
                         (LatestNA, "latest_auto", "latest_fixed");
                         (ControlChartTitle, "control_auto", "control_fixed")])
  /\ (forall uploaded_files,
        empty (process_uploaded_files a uploaded_files).1 = true ->
        (uploaded_files <> [] ->
           main a uploaded_files true
           = (process_uploaded_files a uploaded_files).2 ++ [CannotParse])
        /\ forall button m, In m (main a uploaded_files button) ->
             m = CannotParse \/ exists file e, m = FileError file e).
Proof.
  intros latest_date latest_df.
  split; [apply latest_frame_spec|]. split; [apply latest_day_of_max_time|].
  split; [|split].
  - intros Hcase.
    assert (Hshape : forall ppt, generate_ppt a (Frame df) = Ok ppt ->
              draw_boxplot a df OverallSummary None = Ok (Boxplot df OverallSummary None)
              /\ draw_boxplot a latest_df (LatestData latest_date) None
                 = Ok (Boxplot latest_df (LatestData latest_date) None)).
    { intros ppt. unfold generate_ppt, latest_charts.
      replace (guards_empty a && empty (Frame df)) with false
        by (destruct Hcase as [->|Hne]; [reflexivity|];
            destruct df; [congruence | now rewrite andb_false_r]).
      fold latest_date. fold latest_df.
      destruct (draw_boxplot a df OverallSummary None) as [c1|] eqn:E1;
        [|discriminate].
      apply draw_boxplot_chart in E1 as ->.
      destruct (draw_boxplot a df OverallSummary fixed_box); [|discriminate].
      destruct (draw_boxplot a latest_df (LatestData latest_date) None)
        as [c3|] eqn:E3; [|discriminate].
      apply draw_boxplot_chart in E3 as ->. auto. }
    split.
    + intros ppt Hrun. destruct (Hshape ppt Hrun) as [Hoverall Hlatest].
      rewrite (generate_ppt_drawn a df Hcase Hoverall Hlatest) in Hrun.
      injection Hrun as <-. split; reflexivity.
    + intros Hdraws. eexists.
      apply (generate_ppt_drawn a df Hcase).
      * apply draw_boxplot_returns.
        destruct Hdraws as [Hg|[Hl|[HH HV]]]; auto.
        right. right. split; eapply has_direction_filter; eassumption.
      * now apply draw_boxplot_returns.
  - intros Hguard. eexists. split; [now apply generate_ppt_fallback|].
    repeat split.
  - intros uploaded_files Hempty.
    destruct uploaded_files as [|f rest].
    + split; [congruence|]. intros button m [].
    + rewrite (main_empty_table a f rest Hempty). split; [reflexivity|].
      intros button m Hm. destruct button; [|destruct Hm].
      rewrite (main_empty_table a f rest Hempty) in Hm.
      apply in_app_or in Hm as [Hm|[<-|[]]]; [right | now left].
      rewrite process_uploaded_files_flat in Hm. cbn [snd] in Hm.
      apply in_flat_map in Hm as [g [_ Hm]]. unfold file_errors in Hm.
      destruct (file_failure (rev_of a) g) as [e|]; [|destruct Hm].
      destruct Hm as [<-|[]]. eauto.
Qed.

(** ** The PreAA signal *)

Section SignalFacts.

Context `{Pandas} `{Seaborn}.

Lemma has_station_spec station rows :
  has_station station rows = true <-> has_record station rows.
Proof.
  unfold has_station, has_record. rewrite existsb_exists.
  split; intros [r [Hr Hst]]; exists r; (split; [exact Hr|]).
  - destruct (Station_Generic r) as [s|]; [|discriminate].
    apply String.eqb_eq in Hst. now subst.
  - rewrite Hst. apply String.eqb_refl.
Qed.

(** With a table that is not empty, the main branch shows the file errors,
    then the signal, then the report or the traceback of [generate_ppt]. *)
Lemma main_nonempty_table (a : streamlit) f rest :
  empty (process_uploaded_files a (f :: rest)).1 = false ->
  exists tail,
    main a (f :: rest) true
    = (process_uploaded_files a (f :: rest)).2
      ++ signal a (process_uploaded_files a (f :: rest)).1 :: tail
    /\ forall m, In m tail ->
         m = ReportReady \/ (exists ppt, m = DownloadButton ppt)
         \/ exists e, m = Traceback e.
Proof.
  unfold main. destruct (process_uploaded_files a (f :: rest)) as [df shown].
  simpl. intros ->. simpl.
  destruct (generate_ppt a df) as [ppt|e]; eexists; (split; [reflexivity|]).
  - intros m [<-|[<-|[]]]; eauto.
  - intros m [<-|[]]; eauto.
Qed.

Lemma file_errors_only (a : streamlit) uploaded_files m :
  In m (process_uploaded_files a uploaded_files).2 -> exists file e, m = FileError file e.
Proof.
  rewrite process_uploaded_files_flat. cbn [snd]. intros Hm.
  apply in_flat_map in Hm as [g [_ Hm]]. unfold file_errors in Hm.
  destruct (file_failure (rev_of a) g) as [e|]; [|destruct Hm].
  destruct Hm as [<-|[]]. eauto.
Qed.

End SignalFacts.

(** C10: in revisions 0210v1.1 and 0211v1 the message about PreAA data is
    decided by the presence of a [PreAA_1] record alone. For a table that
    is not empty the main branch shows the success message with PreAA when
    the table has a [PreAA_1] record and the warning otherwise; so a table
    with [PreAA_2] records and no [PreAA_1] record gets the warning that
    PreAA data was not found, and no success message. *)
Theorem preaa_signal_spec `{Pandas} `{Seaborn} (a : streamlit)
    (uploaded_files : list excel_file) :
  let df := (process_uploaded_files a uploaded_files).1 in
  let n := length (rows_of df) in
  (a <> St0210v1 ->
     (has_record "PreAA_1" (rows_of df) -> signal a df = SuccessPreAA n)
     /\ (~ has_record "PreAA_1" (rows_of df) -> signal a df = WarningNoPreAA n))
  /\ (a <> St0210v1 -> uploaded_files <> [] -> empty df = false ->
      has_record "PreAA_2" (rows_of df) -> ~ has_record "PreAA_1" (rows_of df) ->
      In (WarningNoPreAA n) (main a uploaded_files true)
      /\ forall k, ~ In (SuccessPreAA k) (main a uploaded_files true)
                   /\ ~ In (Success k) (main a uploaded_files true)).
Proof.
  intros df n.
  assert (Hsignal : a <> St0210v1 ->
            (has_record "PreAA_1" (rows_of df) -> signal a df = SuccessPreAA n)
            /\ (~ has_record "PreAA_1" (rows_of df) -> signal a df = WarningNoPreAA n)).
  { intros Ha. unfold signal. fold n. rewrite <- has_station_spec.
    destruct a; [congruence | |];
      destruct (has_station "PreAA_1" (rows_of df)); split; congruence. }
  split; [exact Hsignal|].
  intros Ha Hfiles Hfull _ Hno.
  destruct uploaded_files as [|f rest]; [congruence|].
  destruct (main_nonempty_table a f rest Hfull) as [tail [Hmain Htail]].
  fold df in Hmain. destruct (Hsignal Ha) as [_ Hwarn]. rewrite (Hwarn Hno) in Hmain.
  rewrite Hmain. split.
  - apply in_or_app. right. now left.
  - intros k. split; intros Hin; apply in_app_or in Hin as [Hin|[Hin|Hin]];
      try discriminate Hin;
      try (apply file_errors_only in Hin as [file [e Hin]]; discriminate Hin);
      destruct (Htail _ Hin) as [Hm|[[ppt Hm]|[e Hm]]]; discriminate Hm.
Qed.

(** A workbook whose only optical column is a [PreAA_2] column: the run
    warns that PreAA data was not found. *)
Lemma preaa_signal_witness :
  In (WarningNoPreAA 1)
     (main (H := plain_pandas) (H0 := strict_seaborn) St0211v1 [preaa2_file] true)
  /\ forall k,
       ~ In (SuccessPreAA k)
            (main (H := plain_pandas) (H0 := strict_seaborn) St0211v1
                  [preaa2_file] true)
       /\ ~ In (Success k)
               (main (H := plain_pandas) (H0 := strict_seaborn) St0211v1
                     [preaa2_file] true).
Proof.
  apply (proj2 (preaa_signal_spec (H := plain_pandas) (H0 := strict_seaborn)
                  St0211v1 [preaa2_file])).
  - discriminate.
  - discriminate.
  - reflexivity.
  - eexists. split; [left; reflexivity | reflexivity].
  - intros [r [[<-|[]] Hst]]. discriminate Hst.
Defined.

(** ** The statements at work on the example workbooks *)

(** A column of the family with [White] is a target in the first revision. *)
Lemma target_column_test_witness :
  is_target Rev0210v1 "AA_M87_illu_Boresight_H_White_1" = true.
Proof.
  apply (proj1 (proj2 (proj2 (target_column_test_spec
                                "AA_M87_illu_Boresight_H_White_1")))).
  - exists "AA_M87_illu_", "_H_White_1". reflexivity.
  - exists "AA_M87_illu_Boresight_H_", "_1". reflexivity.
Defined.

(** A bare PreAA column goes to [PreAA_1] in 0211v1. *)
Lemma station_classifier_witness :
  get_station_name Rev0211v1 "PreAA_illu_Boresight_X" = Some "PreAA_1".
Proof.
  apply (proj2 (proj2 (proj2 (proj2 (proj2 (proj2
           (station_classifier_total Rev0211v1 "PreAA_illu_Boresight_X"))))))).
  - reflexivity.
  - exists "", "_illu_Boresight_X". reflexivity.
  - apply str_in_false. reflexivity.
  - apply str_in_false. reflexivity.
  - apply str_in_false. reflexivity.
  - apply str_in_false. reflexivity.
Defined.

(** The header of the left sheet is in its third row. *)
Lemma find_header_row_witness :
  find_header_row Rev0211v1 {| sheet_name := "RAA-L"; cells := Ok left_grid |} = 2.
Proof.
  apply (proj1 (proj2 (proj2 (find_header_row_spec Rev0211v1
           {| sheet_name := "RAA-L"; cells := Ok left_grid |})) left_grid eq_refl)).
  - simpl. lia.
  - eexists _, "Tester", "". repeat split; reflexivity.
  - intros j Hj Hrow. apply tester_row_spec in Hrow as [row [Hrow Ht]].
    destruct j as [|[|j]]; [| |lia]; injection Hrow as <-; discriminate Ht.
Defined.

(** The record of the left sheet whose time stamp did not parse is in the
    final table, with a missing CreateTime. *)
Lemma final_table_witness :
  let undated : record cell :=
    {| CreateTime := None;
       Station_Raw := "AA_M87_illu_Boresight_H_White_1";
       Value := CNum (q 5 100);
       Side := "Left";
       Source := Some "good.xlsx";
       Direction := "H";
       Station_Generic := Some "AA" |} in
  In (coerce_value (H := plain_pandas) undated)
     (rows_of (process_uploaded_files (H := plain_pandas) St0211v1 [good_file]).1)
  /\ CreateTime (coerce_value (H := plain_pandas) undated) = None.
Proof.
  intros undated.
  pose proof (final_table_invariant (H := plain_pandas) St0211v1 [good_file]) as T.
  cbv zeta in T. destruct T as (_ & _ & _ & T).
  apply (T undated (q 5 100) "AA").
  - vm_compute. tauto.
  - reflexivity.
  - reflexivity.
  - reflexivity.
Defined.

(** Skipping an unreadable file between two readable ones in 0210v2. *)
Lemma file_failures_witness :
  LocalScript.file_loop (H := plain_pandas) ([good_file] ++ bad_file :: [good_file]) [] []
  = LocalScript.file_loop (H := plain_pandas) ([good_file] ++ [good_file]) [] [].
Proof.
  apply (proj2 (file_failures_are_isolated (H := plain_pandas))
           [good_file] [good_file] bad_file ReadError [] []).
  reflexivity.
Defined.

(** A Left record of the last station sorts before a Right record of the
    first one. *)
Lemma sort_key_witness :
  let left_row : record (option Q) :=
    {| CreateTime := Some 86400%Z; Station_Raw := "AfterBaking_illu_Boresight_V_White_1";
       Value := Some (q 1 10); Side := "Left"; Source := None;
       Direction := "V"; Station_Generic := Some "AfterBaking" |} in
  let right_row : record (option Q) :=
    {| CreateTime := None; Station_Raw := "PreAA_H1_illu_Boresight_White";
       Value := Some (q 2 10); Side := "Right"; Source := None;
       Direction := "Unknown"; Station_Generic := Some "PreAA_1" |} in
  LocalScript.get_sort_key left_row < LocalScript.get_sort_key right_row.
Proof.
  intros left_row right_row.
  apply (proj1 (proj2 (proj2 (proj2 (sort_key_spec (H := plain_pandas)))))).
  - reflexivity.
  - reflexivity.
Defined.

(** The sheet [IPQC-R] passes the gate of every revision and is on the right. *)
Lemma sheet_gate_witness :
  side_of "IPQC-R" = "Right".
Proof.
  pose proof (sheet_gate_and_side (H := plain_pandas) Rev0210v1 None
                {| sheet_name := "IPQC-R"; cells := Ok right_grid |}) as T.
  cbv zeta in T. destruct T as (_ & _ & T & _).
  destruct (T eq_refl) as (_ & _ & Hside & _).
  apply Hside. right. left. reflexivity.
Defined.

(** A workbook without any sheet of the allow-set: the run ends with the
    cannot-parse error and nothing else. *)
Lemma empty_batch_witness :
  main (H := plain_pandas) (H0 := strict_seaborn) St0211v1 [other_sheets_file] true
  = [CannotParse].
Proof.
  pose proof (empty_batch_outcome (H := plain_pandas) (H0 := strict_seaborn)
                St0211v1 [other_sheets_file])
    as (_ & T & _).
  apply T.
  - constructor; [|constructor].
    eexists. split; [reflexivity|].
    constructor; [left; reflexivity | constructor].
  - discriminate.
Defined.

(** Records of two days and one without a date, read by 0210v1 with a
    seaborn that refuses empty panels: the latest charts are drawn from the
    two records of the last day, one of each direction. *)
Lemma latest_variant_witness :
  let row (t : option Z) (direction : string) : record (option Q) :=
    {| CreateTime := t; Station_Raw := "AA_M87_illu_Boresight_White_1";
       Value := Some (q 1 10); Side := "Left"; Source := Some "good.xlsx";
       Direction := direction; Station_Generic := Some "AA" |} in
  let df := [row (Some 86400%Z) "H"; row None "H";
             row (Some 200000%Z) "H"; row (Some 210000%Z) "V"] in
  exists ppt,
    generate_ppt (H := strict_seaborn) St0210v1 (Frame df) = Ok ppt
    /\ image_buffers ppt !! "latest_auto"
       = Some (Boxplot [row (Some 200000%Z) "H"; row (Some 210000%Z) "V"]
                 (LatestData (Some 2%Z)) None).
Proof.
  intros row df.
  destruct (latest_variant_spec (H := plain_pandas) (H0 := strict_seaborn)
              St0210v1 df) as (_ & _ & T & _).
  destruct (T ltac:(now left)) as [Hcharts Hreturns].
  destruct Hreturns as [ppt Hrun]; [right; right; split; reflexivity|].
  exists ppt. split; [exact Hrun|]. exact (proj1 (Hcharts ppt Hrun)).
Defined.

(** ** The classifiers across the revisions *)


(** X3: the three 0210 revisions accept exactly the same column names: the
    added [illu_Boresight] test of 0210v1.1 changes nothing, since such a
    name contains [Boresight]. Revision 0211v1 accepts all of them and, in
    addition, exactly the names with [Boresight] and [PreAA] but without
    [White]. *)
Theorem target_policy_across_revisions (c : string) :
  is_target Rev0210v1_1 c = is_target Rev0210v1 c
  /\ is_target Rev0210v2 c = is_target Rev0210v1 c
  /\ (is_target Rev0210v1 c = true -> is_target Rev0211v1 c = true)
  /\ (is_target Rev0211v1 c = true /\ is_target Rev0210v1 c = false
      <-> occurs "Boresight" c /\ occurs "PreAA" c /\ ~ occurs "White" c).
Proof.
  pose proof (illu_has_Boresight c) as Hillu.
  rewrite <- str_in_false, <- !str_in_spec in *. unfold is_target.
  destruct (str_in "illu_Boresight" c).
  - rewrite (Hillu eq_refl).
    destruct (str_in "White" c), (str_in "PreAA" c); simpl;
      intuition congruence.
  - destruct (str_in "Boresight" c), (str_in "White" c), (str_in "PreAA" c);
      simpl; intuition congruence.
Qed.



(** ** The header locator across the scan depths *)

Section ScanFacts.

(** The scan either finds the first matching row or finds none. *)
Lemma iterrows_scan_cases (rows : grid) (k : nat) :
  ((forall i, ~ tester_row rows i) /\ iterrows_scan k rows = 0)
  \/ exists i,
       tester_row rows i /\ (forall j, j < i -> ~ tester_row rows j)
       /\ iterrows_scan k rows = k + i.
Proof.
  revert k. induction rows as [|row rows IH]; intros k.
  - left. split; [|reflexivity].
    intros i Hi. apply tester_row_spec in Hi as [row [Hrow _]]. discriminate.
  - simpl. destruct (is_tester (cell_at row 0)) eqn:Erow.
    + right. exists 0. split; [|split; [intros j Hj; lia | lia]].
      apply tester_row_spec. exists row. auto.
    + assert (Hshift : forall i, tester_row (row :: rows) (S i) <-> tester_row rows i).
      { intros i. rewrite !tester_row_spec. reflexivity. }
      assert (Hzero : ~ tester_row (row :: rows) 0).
      { intros Hz. apply tester_row_spec in Hz as [row' [[= <-] Ht]]. congruence. }
      destruct (IH (S k)) as [[Hnone Hscan]|[i [Hi [Hfirst Hscan]]]].
      * left. split; [|exact Hscan].
        intros [|i]; [exact Hzero | rewrite Hshift; apply Hnone].
      * right. exists (S i). split; [now apply Hshift|]. split; [|lia].
        intros [|j] Hj; [exact Hzero | rewrite Hshift; apply Hfirst; lia].
Qed.

End ScanFacts.

(** X5: the header locator never points past what it scanned: its result
    is below the scan depth and, when the sheet is readable and not empty,
    a row of the sheet. A result other than 0 is always a row whose first
    cell, stripped, starts with [Tester], with no such row before it; the
    result 0 alone does not tell whether row 0 is such a row or none was
    found. *)
Theorem find_header_row_bounds (rev : revision) (sh : sheet) :
  find_header_row rev sh < nrows rev
  /\ (forall g, cells sh = Ok g ->
        (g <> [] -> find_header_row rev sh < length g)
        /\ (find_header_row rev sh <> 0 ->
            tester_row g (find_header_row rev sh)
            /\ forall j, j < find_header_row rev sh -> ~ tester_row g j)
        /\ (find_header_row rev sh = 0 ->
            tester_row g 0 \/ forall i, i < nrows rev -> ~ tester_row g i)).
Proof.
  assert (Hdepth : 0 < nrows rev) by (destruct rev; simpl; lia).
  unfold find_header_row, read_excel_raw.
  destruct (cells sh) as [g|e]; [|split; [exact Hdepth | discriminate]].
  destruct (iterrows_scan_cases (take (nrows rev) g) 0)
    as [[Hnone ->]|[i [Hi [Hfirst ->]]]].
  - split; [exact Hdepth|]. intros g' [= <-]. split; [|split].
    + destruct g; [congruence | simpl; lia].
    + congruence.
    + intros _. right. intros i Hlt Hi. apply (Hnone i).
      apply tester_row_take. auto.
  - apply tester_row_take in Hi as [Hlt Hi]. simpl.
    split; [exact Hlt|]. intros g' [= <-]. split; [|split].
    + intros _. apply tester_row_spec in Hi as [row [Hrow _]].
      now apply lookup_lt_Some in Hrow.
    + intros _. split; [exact Hi|].
      intros j Hj Htj. apply (Hfirst j Hj). apply tester_row_take. split; [lia | exact Htj].
    + intros ->. now left.
Qed.

(** X6: the two scan depths give the same header row unless the first
    Tester row lies in rows 20 to 29: there the revisions that read 20 rows
    (0210v1, 0210v2) return 0, taking the first row of the sheet as the
    header, and those that read 30 rows (0210v1.1, 0211v1) return the
    row. From row 30 on, every revision returns 0. *)
Theorem scan_depth_divergence (sh : sheet) (g : grid) (i : nat) :
  cells sh = Ok g -> tester_row g i -> (forall j, j < i -> ~ tester_row g j) ->
  (i < 20 -> forall rev, find_header_row rev sh = i)
  /\ (20 <= i < 30 ->
      forall rev, find_header_row rev sh = if later rev then i else 0)
  /\ (30 <= i -> forall rev, find_header_row rev sh = 0).
Proof.
  intros Hcells Hi Hfirst.
  assert (Hin : forall rev, i < nrows rev -> find_header_row rev sh = i).
  { intros rev Hlt. unfold find_header_row, read_excel_raw. rewrite Hcells.
    rewrite (iterrows_scan_first (take (nrows rev) g) 0 i); [reflexivity | |].
    - apply tester_row_take. auto.
    - intros j Hj Htj. apply tester_row_take in Htj as [_ Htj]. now apply (Hfirst j). }
  assert (Hout : forall rev, nrows rev <= i -> find_header_row rev sh = 0).
  { intros rev Hge. unfold find_header_row, read_excel_raw. rewrite Hcells.
    apply iterrows_scan_none. intros j Hj.
    apply tester_row_take in Hj as [Hlt Hj]. apply (Hfirst j); [lia | exact Hj]. }
  split; [|split].
  - intros Hlt rev. apply Hin. destruct rev; simpl; lia.
  - intros [Hge Hlt] rev.
    destruct rev; simpl; (apply Hin; simpl; lia) || (apply Hout; simpl; lia).
  - intros Hge rev. apply Hout. destruct rev; simpl; lia.
Qed.

(** Twenty-two blank rows before the header: the first revision takes row 0
    as the header, the last one row 22. *)
Lemma scan_depth_witness :
  find_header_row Rev0210v1 deep_header_sheet = 0
  /\ find_header_row Rev0211v1 deep_header_sheet = 22.
Proof.
  destruct (scan_depth_divergence deep_header_sheet deep_header_grid 22)
    as (_ & T & _).
  - reflexivity.
  - eexists _, "Tester", "". repeat split; reflexivity.
  - intros j Hj Ht. apply tester_row_spec in Ht as [row [Hrow Ht]].
    do 22 (destruct j as [|j]; [injection Hrow as <-; discriminate Ht|]). lia.
  - split; [apply (T ltac:(lia) Rev0210v1) | apply (T ltac:(lia) Rev0211v1)].
Defined.

(** ** What one sheet yields *)

Section ExtractFacts.

Context `{Pandas}.

Lemma column_index_none label cols :
  column_index label cols = None <-> ~ In label cols.
Proof.
  induction cols as [|c cols IH]; simpl; [tauto|].
  destruct (String.eqb_spec c label) as [->|Hne].
  - split; [discriminate | intros Hx; exfalso; apply Hx; now left].
  - destruct (column_index label cols) as [j|].
    + split; [discriminate|]. intros Hx. exfalso.
      destruct IH as [_ IH]. assert (Hnot : ~ In label cols) by tauto.
      specialize (IH Hnot). discriminate.
    + split; [|reflexivity]. intros _ [Hc|Hc]; [congruence|]. now apply IH.
Qed.

Lemma column_index_some label cols j :
  column_index label cols = Some j ->
  nth_error cols j = Some label /\ forall k, k < j -> nth_error cols k <> Some label.
Proof.
  revert j. induction cols as [|c cols IH]; intros j; simpl; [discriminate|].
  destruct (String.eqb_spec c label) as [->|Hne].
  - intros [= <-]. split; [reflexivity | intros k Hk; lia].
  - destruct (column_index label cols) as [j'|]; [|discriminate].
    intros [= <-]. destruct (IH j' eq_refl) as [Hnth Hfirst]. split; [exact Hnth|].
    intros [|k] Hk; simpl; [congruence | apply Hfirst; lia].
Qed.

Lemma melt_unfold rev side source id_col df value_vars :
  melt rev side source id_col df value_vars
  = flat_map (fun jc => map (melted_record rev side source id_col jc) (data df))
             value_vars.
Proof. reflexivity. Qed.

(** Chunks of one length, put end to end: where element [r] of chunk [c] is. *)
Lemma flat_map_chunk {A B : Type} (f : A -> list B) (n : nat) (l : list A)
    (c r : nat) (x : A) :
  (forall y, length (f y) = n) -> l !! c = Some x -> r < n ->
  flat_map f l !! (c * n + r) = f x !! r.
Proof.
  intros Hlen. revert c. induction l as [|y l IH]; intros c Hc Hr; [discriminate|].
  simpl. destruct c as [|c].
  - injection Hc as ->. simpl. rewrite lookup_app_l; [reflexivity|].
    rewrite Hlen. exact Hr.
  - simpl in Hc. rewrite lookup_app_r by (rewrite Hlen; simpl; lia).
    rewrite Hlen. replace (S c * n + r - n) with (c * n + r) by (simpl; lia).
    now apply IH.
Qed.

Lemma lookup_map {A B : Type} (f : A -> B) (l : list A) (i : nat) (x : A) :
  l !! i = Some x -> map f l !! i = Some (f x).
Proof.
  revert i. induction l as [|y l IH]; intros [|i]; simpl; try discriminate.
  - now intros [= ->].
  - apply IH.
Qed.

Lemma lookup_nth_error {A : Type} (l : list A) (i : nat) : l !! i = nth_error l i.
Proof. revert i. induction l as [|y l IH]; intros [|i]; simpl; auto. Qed.

Lemma flat_map_chunk_length {A B : Type} (f : A -> list B) (n : nat) (l : list A) :
  (forall y, length (f y) = n) -> length (flat_map f l) = length l * n.
Proof.
  intros Hlen. induction l as [|y l IH]; [reflexivity|].
  simpl. rewrite length_app, Hlen, IH. reflexivity.
Qed.

End ExtractFacts.

(** X7: what the extractor does with one sheet. A sheet that fails the gate
    is skipped. A sheet that passes and cannot be read raises. A readable
    sheet without target columns is skipped, whatever its other columns
    are. With target columns, [melt] raises [ValueError] when a column is
    labelled [Value], whether or not there is a [CreateTime] column, and
    [KeyError] when no column is labelled [Value] and none [CreateTime].
    Otherwise the sheet yields one record per target column and data row
    below the header, column by column: with [n] data rows, record
    [c * n + r] is data row [r] under target column [c], and the time stamp
    is read in the first column labelled [CreateTime]. *)
Theorem extract_sheet_outcomes `{Pandas} (rev : revision) (source : option string)
    (sh : sheet) :
  (sheet_allowed rev (sheet_name sh) = false -> extract_sheet rev source sh = Ok None)
  /\ (sheet_allowed rev (sheet_name sh) = true ->
      (forall e, cells sh = Raise e -> extract_sheet rev source sh = Raise e)
      /\ (forall g, cells sh = Ok g ->
          let labels := map header_label (header_cells rev sh g) in
          let targets := target_columns rev labels in
          let rows := data_rows rev sh g in
          (targets = [] -> extract_sheet rev source sh = Ok None)
          /\ (targets <> [] -> In "Value" labels ->
              extract_sheet rev source sh = Raise ValueError)
          /\ (targets <> [] -> ~ In "Value" labels -> ~ In "CreateTime" labels ->
              extract_sheet rev source sh = Raise (KeyError "CreateTime"))
          /\ (targets <> [] -> ~ In "Value" labels -> In "CreateTime" labels ->
              exists id_col melted,
                column_index "CreateTime" labels = Some id_col
                /\ labels !! id_col = Some "CreateTime"
                /\ (forall k, k < id_col -> labels !! k <> Some "CreateTime")
                /\ extract_sheet rev source sh = Ok (Some melted)
                /\ length melted = length targets * length rows
                /\ (forall c r jc row,
                      targets !! c = Some jc -> rows !! r = Some row ->
                      melted !! (c * length rows + r)
                      = Some (melted_record rev (side_of (sheet_name sh)) source
                                id_col jc row))))).
Proof.
  unfold extract_sheet. split; [now intros -> |]. intros ->. simpl.
  unfold extract_allowed, read_excel. split; [now intros e -> |].
  intros g Hg. rewrite Hg. cbn [columns data]. unfold header_cells, data_rows.
  set (labels := map header_label (nth (find_header_row rev sh) g [])).
  set (targets := target_columns rev labels).
  set (rows := drop (S (find_header_row rev sh)) g).
  split; [|split; [|split]].
  - now intros ->.
  - intros Hne Hvalue. apply in_list_spec in Hvalue. rewrite Hvalue.
    destruct targets; [congruence | reflexivity].
  - intros Hne Hvalue Hmiss. apply column_index_none in Hmiss. rewrite Hmiss.
    destruct (in_list "Value" labels) eqn:Ev;
      [apply in_list_spec in Ev; contradiction|].
    destruct targets; [congruence | reflexivity].
  - intros Hne Hvalue Hin.
    destruct (in_list "Value" labels) eqn:Ev;
      [apply in_list_spec in Ev; contradiction|].
    destruct (column_index "CreateTime" labels) as [id_col|] eqn:Eid;
      [|apply column_index_none in Eid; contradiction].
    destruct (column_index_some _ _ _ Eid) as [Hat Hfirst].
    exists id_col,
      (melt rev (side_of (sheet_name sh)) source id_col
            {| columns := labels; data := rows |} targets).
    split; [reflexivity|].
    split; [now rewrite lookup_nth_error|].
    split; [intros k Hk; rewrite lookup_nth_error; now apply Hfirst|].
    split; [destruct targets; [congruence | reflexivity]|].
    rewrite melt_unfold. cbn [data].
    split.
    + apply flat_map_chunk_length. intros jc. apply length_map.
    + intros c r jc row Hjc Hrow.
      rewrite (flat_map_chunk _ (length rows) targets c r jc).
      * now apply lookup_map.
      * intros y. apply length_map.
      * exact Hjc.
      * now apply lookup_lt_Some in Hrow.
Qed.

(** The left sheet of the example: three data rows under two target columns
    give six records. The sheet with a [Value] column: [melt] refuses it. *)
Lemma extract_sheet_witness :
  (exists id_col melted,
     column_index "CreateTime"
       (map header_label
          (header_cells Rev0211v1 {| sheet_name := "RAA-L"; cells := Ok left_grid |}
             left_grid)) = Some id_col
     /\ extract_sheet (H := plain_pandas) Rev0211v1 (Some "good.xlsx")
          {| sheet_name := "RAA-L"; cells := Ok left_grid |} = Ok (Some melted)
     /\ length melted = 2 * 3)
  /\ extract_sheet (H := plain_pandas) Rev0211v1 (Some "value.xlsx")
       {| sheet_name := "RAA-L"; cells := Ok value_grid |} = Raise ValueError.
Proof.
  split.
  - pose proof (extract_sheet_outcomes (H := plain_pandas) Rev0211v1 (Some "good.xlsx")
                  {| sheet_name := "RAA-L"; cells := Ok left_grid |}) as [_ T].
    destruct (T eq_refl) as [_ T'].
    destruct (T' left_grid eq_refl) as (_ & _ & _ & T'').
    destruct T'' as [id_col [melted (Hid & _ & _ & Hrun & Hlen & _)]].
    + discriminate.
    + intros Hin. vm_compute in Hin.
      repeat (destruct Hin as [Hin|Hin]; [discriminate Hin|]). destruct Hin.
    + right. left. reflexivity.
    + exists id_col, melted. auto.
  - pose proof (extract_sheet_outcomes (H := plain_pandas) Rev0211v1 (Some "value.xlsx")
                  {| sheet_name := "RAA-L"; cells := Ok value_grid |}) as [_ T].
    destruct (T eq_refl) as [_ T'].
    destruct (T' value_grid eq_refl) as (_ & T'' & _).
    apply T''.
    + discriminate.
    + do 3 right. left. reflexivity.
Defined.

(** ** Where the records come from *)

Section ProvenanceFacts.

Context `{Pandas}.

(** The loop over [pre ++ rest] is the loop over [pre] and, when that one
    ends without an exception, the loop over [rest] from where it ended. *)
Lemma sheet_loop_app rev file source pre rest all_data out :
  sheet_loop rev file source (pre ++ rest) all_data out
  = match sheet_loop rev file source pre all_data out with
    | (all_data', out', Some e) => (all_data', out', Some e)
    | (all_data', out', None) => sheet_loop rev file source rest all_data' out'
    end.
Proof.
  revert all_data out. induction pre as [|sh pre IH]; intros all_data out;
    [reflexivity|].
  simpl. destruct (extract_sheet rev source sh) as [[melted|]|e];
    [apply IH | apply IH | reflexivity].
Qed.

(** Every frame the loop gathers is what the extractor made of one sheet. *)
Lemma sheet_loop_origin rev file source sheets all_data out frame_rows :
  In frame_rows (sheet_loop rev file source sheets all_data out).1.1 ->
  In frame_rows all_data
  \/ exists sh, In sh sheets /\ extract_sheet rev source sh = Ok (Some frame_rows).
Proof.
  revert all_data out. induction sheets as [|sh rest IH]; intros all_data out; simpl.
  - now left.
  - destruct (extract_sheet rev source sh) as [[melted|]|e] eqn:E.
    + intros Hin. apply IH in Hin as [Hin|[sh' [Hsh' Hx]]].
      * apply in_app_or in Hin as [Hin|[<-|[]]]; [now left|].
        right. exists sh. auto.
      * right. exists sh'. auto.
    + intros Hin. apply IH in Hin as [Hin|[sh' [Hsh' Hx]]]; [now left|].
      right. exists sh'. auto.
    + simpl. now left.
Qed.

Lemma melt_In rev side source id_col df value_vars r :
  In r (melt rev side source id_col df value_vars) ->
  exists jc row,
    In jc value_vars /\ In row (data df)
    /\ r = melted_record rev side source id_col jc row.
Proof.
  rewrite melt_unfold. intros Hr. apply in_flat_map in Hr as [jc [Hjc Hr]].
  apply in_map_iff in Hr as [row [<- Hrow]]. eauto.
Qed.

Lemma enumerate_from_In {A : Type} (cols : list A) (start j : nat) (c : A) :
  In (j, c) (combine (seq start (length cols)) cols) ->
  start <= j /\ nth_error cols (j - start) = Some c.
Proof.
  revert start. induction cols as [|c' cols IH]; intros start Hin; [destruct Hin|].
  simpl in Hin. destruct Hin as [[= <- <-]|Hin].
  - rewrite Nat.sub_diag. split; [lia | reflexivity].
  - destruct (IH (S start) Hin) as [Hle Hnth]. split; [lia|].
    replace (j - start) with (S (j - S start)) by lia. exact Hnth.
Qed.

Lemma target_columns_In rev cols jc :
  In jc (target_columns rev cols) ->
  nth_error cols (fst jc) = Some (snd jc) /\ is_target rev (snd jc) = true.
Proof.
  unfold target_columns, enumerate. rewrite filter_In. intros [Hin Ht].
  split; [|exact Ht]. destruct jc as [j c].
  apply enumerate_from_In in Hin as [_ Hnth]. simpl.
  now rewrite Nat.sub_0_r in Hnth.
Qed.

Lemma extract_sheet_In rev source sh melted m :
  extract_sheet rev source sh = Ok (Some melted) -> In m melted ->
  sheet_allowed rev (sheet_name sh) = true
  /\ exists g id_col jc row,
       cells sh = Ok g
       /\ column_index "CreateTime" (map header_label (header_cells rev sh g))
          = Some id_col
       /\ In jc (target_columns rev (map header_label (header_cells rev sh g)))
       /\ In row (data_rows rev sh g)
       /\ m = melted_record rev (side_of (sheet_name sh)) source id_col jc row.
Proof.
  unfold extract_sheet, extract_allowed, read_excel, header_cells, data_rows.
  destruct (sheet_allowed rev (sheet_name sh)); simpl; [|discriminate].
  destruct (cells sh) as [g|e]; [|discriminate]. cbn [columns].
  set (labels := map header_label (nth (find_header_row rev sh) g [])).
  destruct (target_columns rev labels) as [|jc0 tc] eqn:Etc; [discriminate|].
  destruct (in_list "Value" labels); [discriminate|].
  destruct (column_index "CreateTime" labels) as [id_col|] eqn:Eid; [|discriminate].
  intros [= <-] Hm. split; [reflexivity|].
  destruct (melt_In rev (side_of (sheet_name sh)) source id_col
              {| columns := labels; data := drop (S (find_header_row rev sh)) g |}
              (jc0 :: tc) m Hm) as [jc [row (Hjc & Hrow & ->)]].
  exists g, id_col, jc, row. fold labels. rewrite Etc. repeat split; auto.
Qed.

End ProvenanceFacts.

(** ** A failure the local script does not absorb *)

Section AbortFacts.

Context `{Pandas}.

(** A sheet loop that ends without an exception has printed the lines of
    all its sheets. *)
Lemma sheet_loop_lines rev file source sheets all_data out :
  (sheet_loop rev file source sheets all_data out).2 = None ->
  (sheet_loop rev file source sheets all_data out).1.2
  = out ++ flat_map (sheet_lines rev file) sheets.
Proof.
  revert all_data out. induction sheets as [|sh rest IH]; intros all_data out; simpl.
  - intros _. now rewrite app_nil_r.
  - destruct (extract_sheet rev source sh) as [[melted|]|e]; simpl.
    + intros Hend. rewrite (IH _ _ Hend). now rewrite <- app_assoc.
    + intros Hend. rewrite (IH _ _ Hend). now rewrite <- app_assoc.
    + discriminate.
Qed.

(** The loop of 0210v2 over files that run through or do not open: it goes
    on with the rest, having printed the lines of the sheets it read. *)
Lemma local_file_loop_through before rest all_data out :
  Forall (fun g => file_failure Rev0210v2 g = None \/ exists e', book g = Raise e')
         before ->
  exists all_data',
    LocalScript.file_loop (before ++ rest) all_data out
    = LocalScript.file_loop rest all_data' (out ++ flat_map file_lines before).
Proof.
  intros Hbefore. revert all_data out.
  induction Hbefore as [|g before Hg _ IH]; intros all_data out; simpl.
  - exists all_data. now rewrite app_nil_r.
  - unfold file_lines at 1. destruct (book g) as [gsheets|e'] eqn:Hgb.
    + destruct Hg as [Hg|[e' He']]; [|discriminate].
      unfold file_failure in Hg. rewrite Hgb in Hg.
      pose proof (sheet_loop_lines Rev0210v2 (name g) None gsheets [] [] Hg) as Hlines.
      rewrite sheet_loop_acc.
      destruct (sheet_loop Rev0210v2 (name g) None gsheets [] [])
        as [[added printed] e0].
      simpl in Hg, Hlines. subst e0 printed.
      destruct (IH (all_data ++ added)
                   (out ++ flat_map (sheet_lines Rev0210v2 (name g)) gsheets))
        as [all_data' Hloop].
      exists all_data'. rewrite Hloop. now rewrite <- app_assoc.
    + apply IH.
Qed.

End AbortFacts.

(** X1: in 0210v2 an exception raised while a sheet is read or reshaped is
    not caught, and it ends the run where it is raised. When the files
    before [f] run through or do not open, the sheets of [f] before [bad]
    run through and [bad] raises [e], then [process_data] returns no table
    but ends with [e], and it has printed the count of the files, the lines
    of the sheets it read in the files before [f], and the lines of the
    sheets of [f] up to [bad]: nothing of the sheets after [bad], and
    nothing of the files after [f], which are not opened. So the outcome
    depends on the files after [f] by their number alone. *)
Theorem local_script_sheet_failure_aborts `{Pandas}
    (before after : list excel_file) (f : excel_file) (pre post : list sheet)
    (bad : sheet) (e : exn) :
  Forall (fun g => file_failure Rev0210v2 g = None \/ exists e', book g = Raise e')
         before ->
  book f = Ok (pre ++ bad :: post) ->
  (sheet_loop Rev0210v2 (name f) None pre [] []).2 = None ->
  extract_sheet Rev0210v2 None bad = Raise e ->
  LocalScript.process_data (before ++ f :: after)
  = (FoundFiles (length (before ++ f :: after))
       :: flat_map file_lines before
       ++ flat_map (sheet_lines Rev0210v2 (name f)) (pre ++ [bad]),
     Raise e)
  /\ forall after',
       length after' = length after ->
       LocalScript.process_data (before ++ f :: after')
       = LocalScript.process_data (before ++ f :: after).
Proof.
  intros Hbefore Hbook Hpre Hbad.
  assert (Hrun : forall rest,
            LocalScript.process_data (before ++ f :: rest)
            = (FoundFiles (length (before ++ f :: rest))
                 :: flat_map file_lines before
                 ++ flat_map (sheet_lines Rev0210v2 (name f)) (pre ++ [bad]),
               Raise e)).
  { intros rest. unfold LocalScript.process_data.
    destruct (local_file_loop_through before (f :: rest) []
                [FoundFiles (length (before ++ f :: rest))] Hbefore)
      as [all_data' Hloop].
    destruct (before ++ f :: rest) as [|g files] eqn:Hfiles;
      [now destruct before|].
    rewrite Hloop. simpl. rewrite Hbook, sheet_loop_acc, sheet_loop_app.
    pose proof (sheet_loop_lines Rev0210v2 (name f) None pre [] [] Hpre) as Hlines.
    destruct (sheet_loop Rev0210v2 (name f) None pre [] [])
      as [[added printed] e0].
    simpl in Hpre, Hlines. subst e0 printed. simpl. rewrite Hbad.
    rewrite flat_map_app. simpl. now rewrite app_nil_r. }
  split; [apply Hrun|].
  intros after' Hlen. rewrite !Hrun, !length_app. simpl. now rewrite Hlen.
Qed.

(** A sheet without the [CreateTime] column in the first file: 0210v2 ends
    there, after the line of that sheet, and does not read the second
    file. *)
Lemma local_script_sheet_failure_witness :
  LocalScript.process_data (H := plain_pandas) ([] ++ no_time_file :: [good_file])
  = ([FoundFiles 2; Reading "no_time.xlsx" "RAA-L"], Raise (KeyError "CreateTime")).
Proof.
  destruct (local_script_sheet_failure_aborts (H := plain_pandas) [] [good_file]
              no_time_file []
              [] {| sheet_name := "RAA-L"; cells := Ok no_time_grid |}
              (KeyError "CreateTime")) as [T _].
  - constructor.
  - reflexivity.
  - reflexivity.
  - reflexivity.
  - exact T.
Defined.

(** X8: a file that fails at one of its sheets keeps what its earlier
    sheets gave. When the sheets before the failing one run through, the
    file contributes exactly their frames, the sheets after the failing one
    are never read, and the file is reported once, with the exception of
    the failing sheet. *)
Theorem failing_file_keeps_earlier_sheets `{Pandas} (a : streamlit) (f : excel_file)
    (pre post : list sheet) (bad : sheet) (e : exn) :
  book f = Ok (pre ++ bad :: post) ->
  (sheet_loop (rev_of a) (name f) (Some (name f)) pre [] []).2 = None ->
  extract_sheet (rev_of a) (Some (name f)) bad = Raise e ->
  let kept := (sheet_loop (rev_of a) (name f) (Some (name f)) pre [] []).1.1 in
  file_frames (rev_of a) true f = kept
  /\ file_errors a f = [FileError (name f) e]
  /\ forall before after,
       process_uploaded_files a (before ++ f :: after)
       = (assemble (flat_map (file_frames (rev_of a) true) before ++ kept
                    ++ flat_map (file_frames (rev_of a) true) after),
          flat_map (file_errors a) before ++ FileError (name f) e
          :: flat_map (file_errors a) after).
Proof.
  intros Hbook Hpre Hbad kept.
  assert (Hloop : sheet_loop (rev_of a) (name f) (Some (name f))
                    (pre ++ bad :: post) [] []
                  = (kept, (sheet_loop (rev_of a) (name f) (Some (name f))
                              pre [] []).1.2
                           ++ sheet_lines (rev_of a) (name f) bad, Some e)).
  { rewrite sheet_loop_app. unfold kept.
    destruct (sheet_loop (rev_of a) (name f) (Some (name f)) pre [] [])
      as [[frames printed] e0]. simpl in Hpre. subst e0. simpl.
    now rewrite Hbad. }
  assert (Hframes : file_frames (rev_of a) true f = kept).
  { unfold file_frames. now rewrite Hbook, Hloop. }
  assert (Herrors : file_errors a f = [FileError (name f) e]).
  { unfold file_errors, file_failure. rewrite Hbook.
    destruct (sheet_loop_source (rev_of a) (name f) (Some (name f)) None
                (pre ++ bad :: post) [] [] []) as [He _].
    rewrite <- He, Hloop. reflexivity. }
  split; [exact Hframes|]. split; [exact Herrors|].
  intros before after. rewrite process_uploaded_files_flat.
  rewrite !flat_map_app. simpl. now rewrite Hframes, Herrors.
Qed.

(** The workbook whose second sheet lacks [CreateTime]: the four usable
    records of its first sheet are in the table, the third sheet is not
    read, and the file is reported. *)
Lemma failing_file_witness :
  length (rows_of (process_uploaded_files (H := plain_pandas) St0211v1
                     ([] ++ half_bad_file :: [])).1) = 4
  /\ (process_uploaded_files (H := plain_pandas) St0211v1
        ([] ++ half_bad_file :: [])).2
     = [FileError "half.xlsx" (KeyError "CreateTime")].
Proof.
  destruct (failing_file_keeps_earlier_sheets (H := plain_pandas) St0211v1
              half_bad_file
              [ {| sheet_name := "RAA-L"; cells := Ok left_grid |} ]
              [ {| sheet_name := "IPQC-R"; cells := Ok right_grid |} ]
              {| sheet_name := "RAA-R"; cells := Ok no_time_grid |}
              (KeyError "CreateTime") eq_refl eq_refl eq_refl)
    as (_ & _ & T).
  rewrite (T [] []). split; reflexivity.
Defined.

(** X9: nothing in the final table is invented. Every record comes from one
    data row, below the header row the locator chose, of one sheet that
    passed the gate in one uploaded file that opened: its Source is the
    name of that file, its Side the side of that sheet, its raw station the
    label of a target column of that sheet, its Value the coerced cell of
    the row in that column, its CreateTime the coerced cell of the row in
    the first [CreateTime] column, and its Direction and station are
    computed from the label. *)
Theorem final_records_provenance `{Pandas} (a : streamlit)
    (uploaded_files : list excel_file) (r : record (option Q)) :
  In r (rows_of (process_uploaded_files a uploaded_files).1) ->
  exists f sheets sh g id_col jc row,
    In f uploaded_files /\ book f = Ok sheets /\ In sh sheets
    /\ sheet_allowed (rev_of a) (sheet_name sh) = true
    /\ cells sh = Ok g
    /\ column_index "CreateTime" (map header_label (header_cells (rev_of a) sh g))
       = Some id_col
    /\ nth_error (map header_label (header_cells (rev_of a) sh g)) (fst jc)
       = Some (snd jc)
    /\ is_target (rev_of a) (snd jc) = true
    /\ In row (data_rows (rev_of a) sh g)
    /\ Source r = Some (name f)
    /\ Side r = side_of (sheet_name sh)
    /\ Station_Raw r = snd jc
    /\ Value r = to_numeric (cell_at row (fst jc))
    /\ CreateTime r = to_datetime (cell_at row id_col)
    /\ Direction r = get_direction (snd jc)
    /\ Station_Generic r = get_station_name (rev_of a) (snd jc).
Proof.
  rewrite process_uploaded_files_flat. cbn [fst]. rewrite rows_of_assemble.
  intros Hr. apply dropna_In in Hr as [Hr _].
  apply in_map_iff in Hr as [m [<- Hm]].
  apply in_concat in Hm as [frame_rows [Hframe Hm]].
  apply in_flat_map in Hframe as [f [Hf Hframe]].
  unfold file_frames in Hframe.
  destruct (book f) as [sheets|e] eqn:Hbook; [|destruct Hframe].
  apply sheet_loop_origin in Hframe as [[]|[sh [Hsh Hextract]]].
  destruct (extract_sheet_In _ _ _ _ _ Hextract Hm)
    as [Hgate [g [id_col [jc [row (Hg & Hid & Hjc & Hrow & ->)]]]]].
  apply target_columns_In in Hjc as [Hlabel Htarget].
  exists f, sheets, sh, g, id_col, jc, row. simpl. repeat split; assumption.
Qed.

(** The one record of the workbook with the padded sheet name, read by
    0211v1: it is traced back to that file and sheet. *)
Lemma final_records_witness :
  exists f sh,
    In f [padded_file] /\ sheet_allowed Rev0211v1 (sheet_name sh) = true
    /\ Source (V := option Q)
         {| CreateTime := Some 200000%Z;
            Station_Raw := "PreAA_H2_illu_Boresight_White";
            Value := Some (q 7 100); Side := "Right";
            Source := Some "padded.xlsx"; Direction := "Unknown";
            Station_Generic := Some "PreAA_2" |} = Some (name f).
Proof.
  destruct (final_records_provenance (H := plain_pandas) St0211v1 [padded_file]
              {| CreateTime := Some 200000%Z;
                 Station_Raw := "PreAA_H2_illu_Boresight_White";
                 Value := Some (q 7 100); Side := "Right";
                 Source := Some "padded.xlsx"; Direction := "Unknown";
                 Station_Generic := Some "PreAA_2" |})
    as (f & sheets & sh & g & id_col & jc & row & Hf & _ & _ & Hgate & _ & _ & _
        & _ & _ & Hsource & _).
  - left. reflexivity.
  - exists f, sh. auto.
Defined.

(** ** Labels and panels *)

Section ChartFacts.

Context `{Pandas}.

Lemma has_label_spec x sub :
  has_label x sub = true
  <-> exists r, In r sub /\ LocalScript.display_label r = Some x.
Proof.
  unfold has_label. rewrite existsb_exists. split; intros [r [Hr Hl]]; exists r;
    (split; [exact Hr|]).
  - destruct (LocalScript.display_label r) as [label|]; [|discriminate].
    apply String.eqb_eq in Hl. now subst.
  - rewrite Hl. apply String.eqb_refl.
Qed.

Lemma current_order_In x sub :
  In x (current_order sub)
  <-> In x plot_order /\ exists r, In r sub /\ LocalScript.display_label r = Some x.
Proof.
  unfold current_order. now rewrite filter_In, has_label_spec.
Qed.

Lemma list_filter_sublist {A : Type} (f : A -> bool) (l : list A) :
  sublist (List.filter f l) l.
Proof.
  induction l as [|x l IH]; simpl; [constructor|].
  destruct (f x); now constructor.
Qed.

Lemma plot_order_NoDup : NoDup plot_order.
Proof.
  unfold plot_order, station_order. simpl.
  repeat (apply NoDup_cons_2;
          [rewrite !list_elem_of_In; simpl; intuition discriminate|]).
  apply NoDup_nil_2.
Qed.

(** The label of a record with a side and a named station is in
    [plot_order]. *)
Lemma display_label_in_plot_order (r : record (option Q)) station :
  (Side r = "Left" \/ Side r = "Right") ->
  Station_Generic r = Some station -> In station station_order ->
  exists label, LocalScript.display_label r = Some label /\ In label plot_order.
Proof.
  intros Hside Hst Hin. unfold LocalScript.display_label. rewrite Hst.
  unfold plot_order.
  destruct Hside as [-> | ->]; eexists; (split; [reflexivity|]);
    apply in_or_app; [left | right];
    apply in_map_iff; exists station; split; auto.
Qed.

(** The records of the final table have a side and a named station. *)
Lemma final_rows_labelled (a : streamlit) uploaded_files r :
  In r (rows_of (process_uploaded_files a uploaded_files).1) ->
  (Side r = "Left" \/ Side r = "Right")
  /\ (exists station, Station_Generic r = Some station /\ In station station_order)
  /\ Direction r = get_direction (Station_Raw r).
Proof.
  rewrite process_uploaded_files_flat. cbn [fst]. rewrite rows_of_assemble.
  intros Hr. apply dropna_In in Hr as (Hr & _ & [station Hst]).
  apply in_map_iff in Hr as [m [<- Hm]]. simpl in *.
  apply all_data_classified in Hm as (Hgen & Hdir & _ & Hside).
  split; [exact Hside|]. split; [|exact Hdir].
  exists station. split; [exact Hst|].
  rewrite Hgen in Hst. eapply get_station_name_in_order. exact Hst.
Qed.

End ChartFacts.

(** X10: the two panels of a box plot of the final table. The H panel holds
    exactly the records of Direction H and the V panel those of Direction
    V, so a record of Direction Unknown, which the assembler keeps, is in
    no panel. The x axis of a panel lists, in the order of [plot_order] and
    without repetition, exactly the labels of its records; every record of
    a panel has its label, one of the twelve of [plot_order], on that
    axis, so none is left out of the drawing. *)
Theorem boxplot_panels_spec `{Pandas} (a : streamlit)
    (uploaded_files : list excel_file) :
  let data := rows_of (process_uploaded_files a uploaded_files).1 in
  map panel_direction (create_boxplot a data) = ["H"; "V"]
  /\ length plot_order = 12 /\ NoDup plot_order
  /\ forall p, In p (create_boxplot a data) ->
       (forall r, In r (sub_data p)
                  <-> In r data /\ Direction r = panel_direction p)
       /\ (forall r, In r data -> Direction r = "Unknown" -> ~ In r (sub_data p))
       /\ (forall r, In r (sub_data p) ->
             exists label,
               LocalScript.display_label r = Some label /\ In label plot_order
               /\ In label (order p))
       /\ (forall x, In x (order p)
                     <-> In x plot_order
                         /\ exists r, In r (sub_data p)
                                      /\ LocalScript.display_label r = Some x)
       /\ NoDup (order p)
       /\ sublist (order p) plot_order.
Proof.
  intros data. split; [reflexivity|]. split; [reflexivity|].
  split; [apply plot_order_NoDup|].
  intros p Hp.
  assert (Hsub : forall r, In r (sub_data p)
                           <-> In r data /\ Direction r = panel_direction p).
  { intros r. simpl in Hp.
    destruct Hp as [<-|[<-|[]]]; cbn [sub_data panel_direction];
      rewrite filter_In, String.eqb_eq; reflexivity. }
  assert (Horder : order p = current_order (sub_data p)).
  { simpl in Hp. destruct Hp as [<-|[<-|[]]]; reflexivity. }
  split; [exact Hsub|]. split; [|split; [|split; [|split]]].
  - intros r Hr Hunknown Hin. apply Hsub in Hin as [_ Hdir].
    rewrite Hunknown in Hdir. simpl in Hp.
    destruct Hp as [<-|[<-|[]]]; discriminate Hdir.
  - intros r Hr. pose proof Hr as Hr'. apply Hsub in Hr' as [Hdata _].
    apply final_rows_labelled in Hdata as (Hside & [station [Hst Hin]] & _).
    destruct (display_label_in_plot_order r station Hside Hst Hin)
      as [label [Hlabel Hplot]].
    exists label. split; [exact Hlabel|]. split; [exact Hplot|].
    rewrite Horder. apply current_order_In. eauto.
  - intros x. rewrite Horder. apply current_order_In.
  - rewrite Horder. unfold current_order.
    apply NoDup_ListNoDup, List.NoDup_filter, NoDup_ListNoDup, plot_order_NoDup.
  - rewrite Horder. unfold current_order. apply list_filter_sublist.
Qed.

(** The PreAA record of the example workbook has Direction Unknown: it is
    in the final table and in neither panel. *)
Lemma boxplot_panels_witness :
  let data := rows_of (process_uploaded_files (H := plain_pandas) St0211v1
                         [good_file]).1 in
  let unknown : record (option Q) :=
    {| CreateTime := Some 200000%Z; Station_Raw := "PreAA_H2_illu_Boresight_White";
       Value := Some (q 7 100); Side := "Right"; Source := Some "good.xlsx";
       Direction := "Unknown"; Station_Generic := Some "PreAA_2" |} in
  In unknown data
  /\ Forall (fun p => ~ In unknown (sub_data p)) (create_boxplot St0211v1 data).
Proof.
  intros data unknown.
  assert (Hin : In unknown data) by (vm_compute; tauto).
  split; [exact Hin|].
  apply Forall_forall. intros p Hp. apply list_elem_of_In in Hp.
  pose proof (boxplot_panels_spec (H := plain_pandas) St0211v1 [good_file]) as T.
  cbv zeta in T. destruct T as (_ & _ & _ & T).
  destruct (T p Hp) as (_ & Hunknown & _).
  now apply Hunknown.
Defined.

(** ** The sort key of 0210v2 and the plot order *)

Section KeyOrderFacts.

Context `{Pandas}.

(** A row of the table of [process_data]: the keys of a record that has a
    side and a named station. *)
Lemma process_data_row excel_files out final_df k :
  LocalScript.process_data excel_files = (out, Ok final_df) ->
  In k (rows_of final_df) ->
  exists r j station,
    k = LocalScript.with_keys r
    /\ station_order !! j = Some station /\ Station_Generic r = Some station
    /\ (Side r = "Left" \/ Side r = "Right").
Proof.
  intros Hrun Hk. unfold LocalScript.process_data in Hrun.
  destruct excel_files as [|f rest]; [injection Hrun as _ <-; destruct Hk|].
  destruct (LocalScript.file_loop (f :: rest) [] [FoundFiles (length (f :: rest))])
    as [out' [gathered|e]] eqn:Hloop; [|discriminate].
  injection Hrun as _ <-.
  apply local_file_loop_flat in Hloop. rewrite app_nil_l in Hloop.
  assert (Hrows : rows_of (match assemble gathered with
                           | NoColumns => NoColumns
                           | Frame rows => Frame (map LocalScript.with_keys rows)
                           end)
                  = map LocalScript.with_keys (rows_of (assemble gathered))).
  { destruct (assemble gathered); reflexivity. }
  rewrite Hrows, rows_of_assemble in Hk.
  apply in_map_iff in Hk as [r [<- Hr]].
  apply dropna_In in Hr as (Hr & _ & [station Hst]).
  apply in_map_iff in Hr as [m [<- Hm]]. simpl in Hst.
  rewrite Hloop in Hm. apply all_data_classified in Hm as (Hgen & _ & _ & Hside).
  assert (Hin : In station station_order).
  { rewrite Hgen in Hst. eapply get_station_name_in_order. exact Hst. }
  apply list_elem_of_In, list_elem_of_lookup in Hin as [j Hj].
  exists (coerce_value m), j, station. auto.
Qed.

(** Where the label of such a record stands in [plot_order], and its key. *)
Lemma keyed_position (r : record (option Q)) j station :
  station_order !! j = Some station -> Station_Generic r = Some station ->
  (Side r = "Left" \/ Side r = "Right") ->
  exists i label,
    plot_order !! i = Some label
    /\ LocalScript.display_label r = Some label
    /\ LocalScript.get_sort_key r = (if i <? 6 then i else i + 94)
    /\ i < 12.
Proof.
  intros Hj Hst Hside.
  pose proof (get_sort_key_sides r) as [Hl Hr].
  rewrite (base_order_named r j station Hj Hst) in Hl, Hr.
  unfold LocalScript.display_label. rewrite Hst.
  destruct Hside as [Hside|Hside]; rewrite Hside.
  - exists j. eexists. rewrite (Hl Hside).
    do 6 (destruct j as [|j]; [injection Hj as <-; repeat split; reflexivity || lia|]).
    discriminate.
  - exists (6 + j). eexists. rewrite Hr by (rewrite Hside; discriminate).
    do 6 (destruct j as [|j]; [injection Hj as <-; repeat split; reflexivity || lia|]).
    discriminate.
Qed.

End KeyOrderFacts.

(** X11: the Sort Key of 0210v2 orders the rows as [plot_order] orders their
    labels. Every row of the table [process_data] returns has a label of
    [plot_order]; for two rows, the first has the smaller Sort Key exactly
    when its label stands earlier in [plot_order], and they have the same
    Sort Key exactly when they have the same label. *)
Theorem sort_key_follows_plot_order `{Pandas} (excel_files : list excel_file)
    (out : list line) (final_df : table LocalScript.keyed)
    (k1 k2 : LocalScript.keyed) :
  LocalScript.process_data excel_files = (out, Ok final_df) ->
  In k1 (rows_of final_df) -> In k2 (rows_of final_df) ->
  exists i1 i2 label1 label2,
    plot_order !! i1 = Some label1 /\ LocalScript.Display_Label k1 = Some label1
    /\ plot_order !! i2 = Some label2 /\ LocalScript.Display_Label k2 = Some label2
    /\ (LocalScript.Sort_Key k1 < LocalScript.Sort_Key k2 <-> i1 < i2)
    /\ (LocalScript.Sort_Key k1 = LocalScript.Sort_Key k2
        <-> LocalScript.Display_Label k1 = LocalScript.Display_Label k2).
Proof.
  intros Hrun H1 H2.
  destruct (process_data_row _ _ _ _ Hrun H1) as (r1 & j1 & s1 & -> & Hj1 & Hs1 & Hside1).
  destruct (process_data_row _ _ _ _ Hrun H2) as (r2 & j2 & s2 & -> & Hj2 & Hs2 & Hside2).
  destruct (keyed_position r1 j1 s1 Hj1 Hs1 Hside1) as (i1 & l1 & Hp1 & Hl1 & Hk1 & Hb1).
  destruct (keyed_position r2 j2 s2 Hj2 Hs2 Hside2) as (i2 & l2 & Hp2 & Hl2 & Hk2 & Hb2).
  exists i1, i2, l1, l2. cbn [LocalScript.with_keys LocalScript.Display_Label
                              LocalScript.Sort_Key].
  rewrite Hk1, Hk2, Hl1, Hl2.
  split; [exact Hp1|]. split; [reflexivity|]. split; [exact Hp2|].
  split; [reflexivity|]. split.
  - destruct (Nat.ltb_spec i1 6), (Nat.ltb_spec i2 6); lia.
  - assert (Hkeys : (if i1 <? 6 then i1 else i1 + 94)
                    = (if i2 <? 6 then i2 else i2 + 94) <-> i1 = i2).
    { destruct (Nat.ltb_spec i1 6), (Nat.ltb_spec i2 6); lia. }
    rewrite Hkeys. split.
    + intros ->. congruence.
    + intros [= Hl]. subst l2.
      eapply NoDup_lookup; [apply plot_order_NoDup | exact Hp1 | exact Hp2].
Qed.

(** The example workbook in 0210v2: the Left row of station AA and the Right
    row of station PreAA_2. *)
Lemma sort_key_plot_order_witness :
  let run := LocalScript.process_data (H := plain_pandas) [good_file] in
  let final_df := match run.2 with Ok t => t | Raise _ => NoColumns end in
  let row (t : Z) (raw : string) (v : Q) (side direction station : string) :=
    LocalScript.with_keys
      {| CreateTime := Some t; Station_Raw := raw; Value := Some v; Side := side;
         Source := None; Direction := direction; Station_Generic := Some station |} in
  let k1 := row 86400%Z "AA_M87_illu_Boresight_H_White_1" (q 1 10) "Left" "H" "AA" in
  let k2 := row 200000%Z "PreAA_H2_illu_Boresight_White" (q 7 100) "Right"
                "Unknown" "PreAA_2" in
  exists i1 i2 label1 label2,
    plot_order !! i1 = Some label1 /\ LocalScript.Display_Label k1 = Some label1
    /\ plot_order !! i2 = Some label2 /\ LocalScript.Display_Label k2 = Some label2
    /\ (LocalScript.Sort_Key k1 < LocalScript.Sort_Key k2 <-> i1 < i2)
    /\ (LocalScript.Sort_Key k1 = LocalScript.Sort_Key k2
        <-> LocalScript.Display_Label k1 = LocalScript.Display_Label k2).
Proof.
  intros run final_df row k1 k2.
  apply (sort_key_follows_plot_order (H := plain_pandas) [good_file] run.1 final_df).
  - reflexivity.
  - vm_compute. tauto.
  - vm_compute. tauto.
Defined.

(** ** When [generate_ppt] returns a presentation *)

Section PptFacts.

Context `{Seaborn}.

(** In 0210v1 a seaborn that refuses a panel without rows ends
    [generate_ppt] as soon as the latest day lacks a direction: at the
    overall chart when the whole table lacks it, at the latest chart
    otherwise. *)
Lemma generate_ppt_unguarded_raises (a : streamlit) rows e :
  guards_empty a = false -> boxplot_empty = Some e ->
  (let latest_df := List.filter (on_date (option_map date (max_time rows))) rows in
   has_direction "H" latest_df && has_direction "V" latest_df = false) ->
  generate_ppt a (Frame rows) = Raise e.
Proof.
  intros Hguard He Hmiss. unfold generate_ppt.
  rewrite !(draw_boxplot_unguarded a rows _ _ Hguard), He.
  destruct (has_direction "H" rows && has_direction "V" rows); [|reflexivity].
  unfold latest_charts. rewrite Hguard. cbn [andb].
  now rewrite (draw_boxplot_raises a _ _ _ e Hguard He Hmiss).
Qed.

(** The run of a table with records: the errors of the files, the signal,
    and the report or the traceback. *)
Lemma main_report `{Pandas} (a : streamlit) uploaded_files :
  rows_of (process_uploaded_files a uploaded_files).1 <> [] ->
  main a uploaded_files true
  = (process_uploaded_files a uploaded_files).2
    ++ signal a (process_uploaded_files a uploaded_files).1
    :: match generate_ppt a (process_uploaded_files a uploaded_files).1 with
       | Ok ppt_file => [ReportReady; DownloadButton ppt_file]
       | Raise e => [Traceback e]
       end.
Proof.
  intros Hrows. unfold main. destruct uploaded_files as [|f rest].
  - exfalso. apply Hrows. reflexivity.
  - destruct (process_uploaded_files a (f :: rest)) as [df shown]. simpl in *.
    destruct df as [|[|r df]]; simpl in *; congruence.
Qed.

End PptFacts.

(** X2: a table that has records, none of them with a parsed CreateTime.
    The latest date is NaT and no record is on it, so the latest frame is
    empty. 0210v1.1 and 0211v1 draw its two charts without calling
    [sns.boxplot], and return the presentation whose second slide is
    titled with NaT; the run ends with the report and the download button.
    0210v1 calls [sns.boxplot] on the empty panels: with a seaborn that
    accepts them it does the same, with one that raises there the run ends
    with the traceback of that exception, after the row count. *)
Theorem undated_table_report `{Pandas} `{Seaborn} (a : streamlit)
    (uploaded_files : list excel_file) :
  let df := (process_uploaded_files a uploaded_files).1 in
  let shown := (process_uploaded_files a uploaded_files).2 in
  rows_of df <> [] ->
  (forall r, In r (rows_of df) -> CreateTime r = None) ->
  (guards_empty a = true \/ boxplot_empty = None ->
   exists ppt,
     generate_ppt a df = Ok ppt
     /\ image_buffers ppt !! "latest_auto" = Some (Boxplot [] (LatestData None) None)
     /\ image_buffers ppt !! "latest_fixed"
        = Some (Boxplot [] (LatestData None) fixed_box)
     /\ slides ppt = [(OverallSummary, "overall_auto", "overall_fixed");
                      (LatestData None, "latest_auto", "latest_fixed");
                      (ControlChartTitle, "control_auto", "control_fixed")]
     /\ main a uploaded_files true
        = shown ++ [signal a df; ReportReady; DownloadButton ppt])
  /\ (guards_empty a = false -> forall e, boxplot_empty = Some e ->
      generate_ppt a df = Raise e
      /\ main a uploaded_files true = shown ++ [signal a df; Traceback e]).
Proof.
  intros df shown Hrows Hnone.
  pose proof (main_report a uploaded_files Hrows) as Hmain.
  fold df in Hmain. fold shown in Hmain.
  destruct df as [|rows] eqn:Hdf; [now contradiction Hrows|]. simpl in Hrows, Hnone.
  destruct (undated_latest_frame rows Hnone) as [Hdate Hframe].
  split.
  - intros Hdraws.
    assert (Hrun : generate_ppt a (Frame rows)
                   = Ok {| image_buffers :=
                             <["control_fixed" := ControlChart rows fixed_control]>
                               (<["control_auto" := ControlChart rows None]>
                                  (<["latest_fixed" :=
                                       Boxplot [] (LatestData None) fixed_box]>
                                     (<["latest_auto" :=
                                          Boxplot [] (LatestData None) None]>
                                        (<["overall_fixed" :=
                                             Boxplot rows OverallSummary fixed_box]>
                                           (<["overall_auto" :=
                                                Boxplot rows OverallSummary None]>
                                              ∅)))));
                           slides :=
                             [(OverallSummary, "overall_auto", "overall_fixed");
                              (LatestData None, "latest_auto", "latest_fixed");
                              (ControlChartTitle, "control_auto", "control_fixed")] |}).
    { rewrite (generate_ppt_drawn a rows (or_intror Hrows)).
      - now rewrite Hframe, Hdate.
      - apply draw_boxplot_returns. tauto.
      - apply draw_boxplot_returns. tauto. }
    eexists. split; [exact Hrun|]. rewrite Hmain, Hrun. repeat split.
  - intros Hguard e He.
    assert (Hrun : generate_ppt a (Frame rows) = Raise e).
    { apply generate_ppt_unguarded_raises; [assumption..|].
      cbv zeta. now rewrite Hframe. }
    split; [exact Hrun|]. now rewrite Hmain, Hrun.
Qed.

(** The workbook whose time stamps are text that does not parse: 0211v1
    reports, with the latest slide titled NaT. *)
Lemma undated_table_report_witness :
  exists ppt,
    generate_ppt (H := strict_seaborn) St0211v1
      (process_uploaded_files (H := plain_pandas) St0211v1 [undated_file]).1 = Ok ppt
    /\ image_buffers ppt !! "latest_auto" = Some (Boxplot [] (LatestData None) None)
    /\ main (H := plain_pandas) (H0 := strict_seaborn) St0211v1 [undated_file] true
       = [WarningNoPreAA 1; ReportReady; DownloadButton ppt].
Proof.
  destruct (undated_table_report (H := plain_pandas) (H0 := strict_seaborn)
              St0211v1 [undated_file]) as [T _].
  - discriminate.
  - intros r [<-|[]]. reflexivity.
  - destruct T as [ppt (Hrun & Hauto & _ & _ & Hmain)]; [now left|].
    exists ppt. auto.
Defined.

(** X12: the outcomes of [generate_ppt]. On the table without columns it
    raises [KeyError]: there is no [Side] column. On a table with columns,
    0210v1.1 and 0211v1 always return a presentation, and so does 0210v1
    when seaborn accepts a panel without rows or the latest day has
    records of both directions; when seaborn raises on such a panel and the
    latest day lacks a direction, 0210v1 raises that exception. A
    presentation returned has the three slides Overall, Latest and Control
    chart, each of whose two picture keys is bound in [image_buffers], so
    [add_dual_slide] never misses a key; its overall and control charts are
    drawn from the whole table, and its latest slide is the reused overall
    pair under N/A for the table without rows in 0210v1.1 and 0211v1, and
    the charts of the latest frame under the latest date otherwise. *)
Theorem generate_ppt_outcomes `{Seaborn} (a : streamlit)
    (rows : list (record (option Q))) :
  let latest_date := option_map date (max_time rows) in
  let latest_df := List.filter (on_date latest_date) rows in
  let fallback := guards_empty a && is_nil rows in
  generate_ppt a NoColumns = Raise (KeyError "Side")
  /\ (guards_empty a = true \/ boxplot_empty = None
      \/ (has_direction "H" latest_df = true /\ has_direction "V" latest_df = true) ->
      exists ppt,
        generate_ppt a (Frame rows) = Ok ppt
        /\ slides ppt
           = [(OverallSummary, "overall_auto", "overall_fixed");
              (if fallback then LatestNA else LatestData latest_date,
               "latest_auto", "latest_fixed");
              (ControlChartTitle, "control_auto", "control_fixed")]
        /\ (forall s, In s (slides ppt) ->
              is_Some (image_buffers ppt !! s.1.2)
              /\ is_Some (image_buffers ppt !! s.2))
        /\ image_buffers ppt !! "overall_auto" = Some (Boxplot rows OverallSummary None)
        /\ image_buffers ppt !! "overall_fixed"
           = Some (Boxplot rows OverallSummary fixed_box)
        /\ image_buffers ppt !! "latest_auto"
           = Some (if fallback then Boxplot rows OverallSummary None
                   else Boxplot latest_df (LatestData latest_date) None)
        /\ image_buffers ppt !! "latest_fixed"
           = Some (if fallback then Boxplot rows OverallSummary fixed_box
                   else Boxplot latest_df (LatestData latest_date) fixed_box)
        /\ image_buffers ppt !! "control_auto" = Some (ControlChart rows None)
        /\ image_buffers ppt !! "control_fixed"
           = Some (ControlChart rows fixed_control))
  /\ (guards_empty a = false -> forall e, boxplot_empty = Some e ->
      has_direction "H" latest_df && has_direction "V" latest_df = false ->
      generate_ppt a (Frame rows) = Raise e).
Proof.
  intros latest_date latest_df fallback.
  split; [reflexivity|]. split.
  - intros Hdraws. destruct fallback eqn:Hfall.
    + apply andb_prop in Hfall as [Hguard Hnil].
      destruct rows; [|discriminate].
      eexists. split; [now apply generate_ppt_fallback|].
      cbn [slides image_buffers]. split; [reflexivity|].
      split; [|repeat split].
      intros s [<-|[<-|[<-|[]]]]; split; eexists; reflexivity.
    + assert (Hcase : guards_empty a = false \/ rows <> []).
      { unfold fallback in Hfall. apply andb_false_iff in Hfall as [Hg|Hn];
          [now left | right; now destruct rows]. }
      eexists. split.
      * apply (generate_ppt_drawn a rows Hcase).
        -- apply draw_boxplot_returns.
           destruct Hdraws as [Hg|[Hl|[HH HV]]]; auto.
           right. right. split; eapply has_direction_filter; eassumption.
        -- now apply draw_boxplot_returns.
      * cbn [slides image_buffers]. split; [reflexivity|].
        split; [|repeat split].
        intros s [<-|[<-|[<-|[]]]]; split; eexists; reflexivity.
  - intros Hguard e He Hmiss. now apply generate_ppt_unguarded_raises.
Qed.

(** The rows of the example workbook, whose last day has a record of
    direction V and none of direction H: 0211v1 returns the three slides,
    and 0210v1 with a seaborn that refuses empty panels raises. *)
Lemma generate_ppt_witness :
  (exists ppt,
      generate_ppt (H := strict_seaborn) St0211v1
        (Frame (rows_of (process_uploaded_files (H := plain_pandas) St0211v1
                           [good_file]).1)) = Ok ppt
      /\ length (slides ppt) = 3)
  /\ generate_ppt (H := strict_seaborn) St0210v1
       (Frame (rows_of (process_uploaded_files (H := plain_pandas) St0210v1
                          [good_file]).1)) = Raise ValueError.
Proof.
  split.
  - destruct (generate_ppt_outcomes (H := strict_seaborn) St0211v1
                (rows_of (process_uploaded_files (H := plain_pandas) St0211v1
                            [good_file]).1)) as (_ & T & _).
    destruct T as [ppt (Hrun & Hslides & _)]; [now left|].
    exists ppt. split; [exact Hrun|]. now rewrite Hslides.
  - destruct (generate_ppt_outcomes (H := strict_seaborn) St0210v1
                (rows_of (process_uploaded_files (H := plain_pandas) St0210v1
                            [good_file]).1)) as (_ & _ & T).
    apply T; reflexivity.
Defined.

(** ** The local script and the first Streamlit revision *)

Section LocalVsStreamlit.

Context `{Pandas}.

(** 0210v2 extracts a sheet as 0210v1 does. *)
Lemma extract_sheet_local source sh :
  extract_sheet Rev0210v2 source sh = extract_sheet Rev0210v1 source sh.
Proof. reflexivity. Qed.

(** The [Source] column is the only thing the source changes. *)
Lemma extract_sheet_set_source rev source sh :
  extract_sheet rev source sh
  = match extract_sheet rev None sh with
    | Ok (Some melted) => Ok (Some (map (set_source source) melted))
    | Ok None => Ok None
    | Raise e => Raise e
    end.
Proof.
  unfold extract_sheet, extract_allowed.
  destruct (negb (sheet_allowed rev (sheet_name sh))); [reflexivity|].
  destruct (read_excel sh (find_header_row rev sh)) as [df|e]; [|reflexivity].
  destruct (target_columns rev (columns df)) as [|jc tc]; [reflexivity|].
  destruct (in_list "Value" (columns df)); [reflexivity|].
  destruct (column_index "CreateTime" (columns df)) as [id_col|]; [|reflexivity].
  do 2 f_equal. rewrite !melt_unfold.
  generalize (jc :: tc). intros value_vars.
  induction value_vars as [|jc' rest IH]; [reflexivity|].
  simpl. rewrite map_app, IH. f_equal.
  rewrite map_map. reflexivity.
Qed.

(** The frames of the two loops, started on matching accumulators. *)
Lemma sheet_loop_local file source sheets all_data out out' :
  (sheet_loop Rev0210v1 file source sheets
     (map (map (set_source source)) all_data) out').1.1
  = map (map (set_source source))
        (sheet_loop Rev0210v2 file None sheets all_data out).1.1
  /\ (sheet_loop Rev0210v1 file source sheets
        (map (map (set_source source)) all_data) out').2
     = (sheet_loop Rev0210v2 file None sheets all_data out).2.
Proof.
  revert all_data out out'.
  induction sheets as [|sh rest IH]; intros all_data out out'; [split; reflexivity|].
  simpl. rewrite (extract_sheet_set_source Rev0210v1 source sh).
  rewrite (extract_sheet_local None sh).
  destruct (extract_sheet Rev0210v1 None sh) as [[melted|]|e].
  - specialize (IH (all_data ++ [melted])). rewrite map_app in IH. apply IH.
  - apply IH.
  - split; reflexivity.
Qed.

Lemma coerce_set_source source (m : record cell) :
  coerce_value (set_source source m) = set_source source (coerce_value m).
Proof. reflexivity. Qed.

Lemma dropna_set_source source rows :
  dropna (map (set_source source) rows) = map (set_source source) (dropna rows).
Proof.
  unfold dropna. induction rows as [|r rows IH]; [reflexivity|].
  simpl. destruct (present (Value r) && present (Station_Generic r)); simpl;
    now rewrite IH.
Qed.

Lemma set_source_twice {V : Type} s s' (r : record V) :
  set_source s (set_source s' r) = set_source s r.
Proof. reflexivity. Qed.

(** Per file: without its [Source] column, what 0210v1 gathers is what
    0210v2 gathers. *)
Lemma file_frames_local f :
  map (map (set_source None)) (file_frames Rev0210v1 true f)
  = map (map (set_source None)) (file_frames Rev0210v2 false f).
Proof.
  unfold file_frames. destruct (book f) as [sheets|e]; [|reflexivity].
  destruct (sheet_loop_local (name f) (Some (name f)) sheets [] [] []) as [Hframes _].
  simpl in Hframes. rewrite Hframes. rewrite !map_map.
  apply map_ext. intros frame_rows. rewrite map_map.
  apply map_ext. intros r. reflexivity.
Qed.

Lemma flat_map_frames_local files :
  map (map (set_source None)) (flat_map (file_frames Rev0210v1 true) files)
  = map (map (set_source None)) (flat_map (file_frames Rev0210v2 false) files).
Proof.
  induction files as [|f rest IH]; [reflexivity|].
  simpl. rewrite !map_app, IH, file_frames_local. reflexivity.
Qed.

Lemma concat_map_map {A B : Type} (g : A -> B) (ll : list (list A)) :
  concat (map (map g) ll) = map g (concat ll).
Proof.
  induction ll as [|l ll IH]; [reflexivity|].
  simpl. now rewrite map_app, IH.
Qed.

Lemma final_rows_set_source source all_data :
  map (set_source source) (dropna (map coerce_value (concat all_data)))
  = dropna (map coerce_value (concat (map (map (set_source source)) all_data))).
Proof.
  rewrite concat_map_map, map_map.
  rewrite <- dropna_set_source, map_map. reflexivity.
Qed.

End LocalVsStreamlit.

(** X13: whenever [process_data] of 0210v2 returns a table, its rows are,
    apart from the [Source] column that 0210v2 does not have, exactly the
    rows [process_uploaded_files] of 0210v1 assembles from the same files,
    in the same order; the two added columns hold the label and the Sort
    Key of each row. *)
Theorem local_table_is_streamlit_table `{Pandas} (excel_files : list excel_file)
    (out : list line) (final_df : table LocalScript.keyed) :
  LocalScript.process_data excel_files = (out, Ok final_df) ->
  map (fun k => set_source None (LocalScript.base k)) (rows_of final_df)
  = map (set_source None)
        (rows_of (process_uploaded_files St0210v1 excel_files).1)
  /\ forall k, In k (rows_of final_df) ->
       LocalScript.Display_Label k = LocalScript.display_label (LocalScript.base k)
       /\ LocalScript.Sort_Key k = LocalScript.get_sort_key (LocalScript.base k).
Proof.
  intros Hrun. unfold LocalScript.process_data in Hrun.
  destruct excel_files as [|f rest]; [injection Hrun as _ <-; split; [reflexivity | intros k []]|].
  destruct (LocalScript.file_loop (f :: rest) [] [FoundFiles (length (f :: rest))])
    as [out' [gathered|e]] eqn:Hloop; [|discriminate].
  injection Hrun as _ <-.
  apply local_file_loop_flat in Hloop. rewrite app_nil_l in Hloop.
  assert (Hrows : rows_of (match assemble gathered with
                           | NoColumns => NoColumns
                           | Frame rows => Frame (map LocalScript.with_keys rows)
                           end)
                  = map LocalScript.with_keys (rows_of (assemble gathered))).
  { destruct (assemble gathered); reflexivity. }
  rewrite Hrows, rows_of_assemble. split.
  - rewrite map_map. cbn [LocalScript.with_keys LocalScript.base].
    rewrite process_uploaded_files_flat. cbn [fst rev_of].
    rewrite rows_of_assemble, !final_rows_set_source.
    now rewrite Hloop, flat_map_frames_local.
  - intros k Hk. apply in_map_iff in Hk as [r [<- _]]. split; reflexivity.
Qed.

(** The example workbook, read by both revisions. *)
Lemma local_table_witness :
  let run := LocalScript.process_data (H := plain_pandas) [good_file] in
  let final_df := match run.2 with Ok t => t | Raise _ => NoColumns end in
  map (fun k => set_source None (LocalScript.base k)) (rows_of final_df)
  = map (set_source None)
        (rows_of (process_uploaded_files (H := plain_pandas) St0210v1 [good_file]).1).
Proof.
  intros run final_df.
  apply (local_table_is_streamlit_table (H := plain_pandas) [good_file] run.1 final_df).
  reflexivity.
Defined.
